(** * The federated leave handshake: [MakeLeave] and [SendLeave]

    A shallow embedding of [federationapi/routing/leave.go].  The two
    handlers are written in a small monad that threads the outside world
    through every collaborator call, records the calls in the order they
    are made, and can panic the way Go does.  The collaborators
    themselves (room server, key ring, the event library) are interfaces:
    the handlers are verified for every implementation of them. *)

From Stdlib Require Import String Ascii List ZArith Bool Lia.
Import ListNotations.
Local Open Scope string_scope.
Local Open Scope Z_scope.

Set Implicit Arguments.

(** ** Plain Go data *)

Definition ServerName := string.
Definition RoomVersion := string.
Definition RawJSON := string.
Definition Timestamp := Z.
Definition Time := Z.

(** [net/http] status codes used by the handlers. *)
Module http.
Definition StatusOK : Z := 200.
Definition StatusBadRequest : Z := 400.
Definition StatusForbidden : Z := 403.
Definition StatusNotFound : Z := 404.
Definition StatusInternalServerError : Z := 500.
End http.

(** A Go [error] value.  The handlers look at an error in three ways:
    they compare it with the sentinel [eventutil.ErrRoomNoExists], they
    type-assert it to [gomatrixserverlib.BadJSONError], and they take its
    message with [Error()].  [errDyn] keeps what the first two observe. *)
Inductive errorDyn : Type :=
| IsErrRoomNoExists
| IsBadJSONError
| IsOtherError.

Record error : Type := mkError { errDyn : errorDyn; Error : string }.

Definition errors_New (msg : string) : error := mkError IsOtherError msg.

(** [err == eventutil.ErrRoomNoExists] *)
Definition is_ErrRoomNoExists (err : error) : bool :=
  match errDyn err with IsErrRoomNoExists => true | _ => false end.

(** [e, ok := err.(gomatrixserverlib.BadJSONError)] *)
Definition as_BadJSONError (err : error) : option error :=
  match errDyn err with IsBadJSONError => Some err | _ => None end.

(** [gomatrixserverlib.Leave] *)
Definition Leave : string := "leave".

(** [gomatrixserverlib.FederationRequest]: the caller established by the
    transport layer and the request body. *)
Module FederationRequest.
Record t : Type := mk { Origin : ServerName; Content : RawJSON }.
End FederationRequest.

(** [config.Dendrite], as far as the handlers read it. *)
Module config.
Record Matrix : Type := mkMatrix { ServerName_ : ServerName }.
Record Dendrite : Type := mkDendrite { Matrix_ : Matrix }.
End config.

(** The fields of [gomatrixserverlib.EventBuilder] that [MakeLeave] does
    not set itself; they are drawn from the current room state when the
    event is built. *)
Module BuilderAux.
Record t : Type := mk { PrevEvents : list string; AuthEvents : list string; Depth : Z }.
Definition zero : t := mk [] [] 0.
End BuilderAux.

(** [gomatrixserverlib.EventBuilder]; [StateKey] is a [*string]. *)
Module EventBuilder.
Record t : Type := mk {
  Sender : string;
  RoomID : string;
  Type_ : string;
  StateKey : option string;
  Content : RawJSON;
  Aux : BuilderAux.t
}.
End EventBuilder.

(** [gomatrixserverlib.HeaderedEvent]: an event labelled with the room
    version it belongs to. *)
Module HeaderedEvent.
Record t (Event : Type) : Type := mk { RoomVersion_ : RoomVersion; Event_ : Event }.
End HeaderedEvent.

Module api.
Record QueryRoomVersionForRoomRequest : Type := mkVerReq { RoomID : string }.
Record QueryRoomVersionForRoomResponse : Type := mkVerRes { RoomVersion_ : RoomVersion }.
Record QueryLatestEventsAndStateResponse (Event : Type) : Type :=
  mkQueryRes { StateEvents : list (HeaderedEvent.t Event) }.
End api.

(** [gomatrixserverlib.VerifyJSONRequest] and [VerifyJSONResult]. *)
Module VerifyJSONRequest.
Record t : Type := mk {
  ServerName_ : ServerName;
  Message : RawJSON;
  AtTS : Timestamp;
  StrictValidityChecking : bool
}.
End VerifyJSONRequest.

Module VerifyJSONResult.
Record t : Type := mk { Error_ : option error }.
End VerifyJSONResult.

(** ** Responses *)

(** The bodies built by [clientapi/jsonerror], one constructor per
    builder the handlers call. *)
Module MatrixError.
Inductive t : Type :=
| BadJSON (msg : string)
| Forbidden (msg : string)
| NotFound (msg : string)
| NotJSON (msg : string)
| UnsupportedRoomVersion (msg : string)
| Unknown (msg : string).
End MatrixError.

(** What a handler puts in the [JSON interface{}] field of a
    [util.JSONResponse]: an error body, a whole response (the resolver
    branch of [MakeLeave] nests one), the draft, or [struct{}{}]. *)
Inductive JSONBody : Type :=
| JError (e : MatrixError.t)
| JResponse (code : Z) (body : JSONBody)
| JDraft (room_version : RoomVersion) (event : EventBuilder.t)
| JEmpty.

Module util.
Record JSONResponse : Type := mk { Code : Z; JSON : JSONBody }.
End util.

Definition nested (r : util.JSONResponse) : JSONBody :=
  JResponse (util.Code r) (util.JSON r).

Module jsonerror.
Definition BadJSON (msg : string) : JSONBody := JError (MatrixError.BadJSON msg).
Definition Forbidden (msg : string) : JSONBody := JError (MatrixError.Forbidden msg).
Definition NotFound (msg : string) : JSONBody := JError (MatrixError.NotFound msg).
Definition NotJSON (msg : string) : JSONBody := JError (MatrixError.NotJSON msg).
Definition UnsupportedRoomVersion (msg : string) : JSONBody :=
  JError (MatrixError.UnsupportedRoomVersion msg).

(** Modelled from the spec: [jsonerror.InternalServerError], whose body
    is in clientapi/jsonerror and not in this file.  The handlers use
    its result as a complete response, so it is one; the spec's
    [InternalFailure] is opaque to the caller, hence a fixed body
    under the status the resolver branch of [MakeLeave] pairs it with. *)
Definition InternalServerError : util.JSONResponse :=
  util.mk http.StatusInternalServerError
          (JError (MatrixError.Unknown "Internal Server Error")).
End jsonerror.

(** ** Collaborator calls and the handler monad *)

(** One entry per call a handler makes on a collaborator that lives
    outside the request: the room server, the key ring, the logger. *)
Inductive Call (Event : Type) : Type :=
| CallQueryRoomVersionForRoom (req : api.QueryRoomVersionForRoomRequest)
| CallBuildEvent (builder : EventBuilder.t) (cfg : config.Dendrite) (evTime : Time)
| CallVerifyJSONs (reqs : list VerifyJSONRequest.t)
| CallSendEvents (events : list (HeaderedEvent.t Event)) (sendAsServer : ServerName)
                 (txnID : option string)
| CallLogError (err : error) (msg : string).

Arguments CallQueryRoomVersionForRoom {Event} req.
Arguments CallBuildEvent {Event} builder cfg evTime.
Arguments CallVerifyJSONs {Event} reqs.
Arguments CallLogError {Event} err msg.

Inductive Outcome (A : Type) : Type :=
| Returned (a : A)
| Panicked (reason : string).

Arguments Panicked {A} reason.

(** A handler step: from a world to an outcome, the world after it, and
    the calls made on the way. *)
Definition Handler (World Event A : Type) : Type :=
  World -> Outcome A * World * list (Call Event).

Section Monad.
Context {World Event : Type}.

Definition ret {A} (a : A) : Handler World Event A :=
  fun w => (Returned a, w, []).

Definition panic {A} (reason : string) : Handler World Event A :=
  fun w => (Panicked reason, w, []).

Definition bind {A B} (m : Handler World Event A) (f : A -> Handler World Event B)
  : Handler World Event B :=
  fun w =>
    match m w with
    | (Returned a, w1, t1) =>
        match f a w1 with
        | (o, w2, t2) => (o, w2, (t1 ++ t2)%list)
        end
    | (Panicked reason, w1, t1) => (Panicked reason, w1, t1)
    end.

(** Perform a collaborator call [f] and record it as [c]. *)
Definition perform {A} (c : Call Event) (f : World -> A * World) : Handler World Event A :=
  fun w => match f w with (a, w1) => (Returned a, w1, [c]) end.

(** Read the world without changing it and without a record. *)
Definition observe {A} (f : World -> A) : Handler World Event A :=
  fun w => (Returned (f w), w, []).
End Monad.

Declare Scope handler_scope.
Delimit Scope handler_scope with handler.
Notation "x <- m ;; k" := (bind m (fun x => k))
  (at level 61, m at next level, right associativity) : handler_scope.
Notation "m ;;; k" := (bind m (fun _ => k))
  (at level 61, right associativity) : handler_scope.

Definition response {World Event A} (r : Outcome A * World * list (Call Event)) : Outcome A :=
  fst (fst r).
Definition calls {World Event A} (r : Outcome A * World * list (Call Event)) : list (Call Event) :=
  snd r.

(** ** The collaborators *)

(** [gomatrixserverlib]: identifiers, JSON, events and the authorization
    rules.  All of it is pure. *)
Class Gomatrixserverlib (Event AuthEvents : Type) : Type := {
  SplitID : ascii -> string -> error + (string * ServerName);
  json_Marshal : list (string * string) -> error + RawJSON;
  NewEventFromUntrustedJSON : RawJSON -> RoomVersion -> error + Event;
  Event_RoomID : Event -> string;
  Event_EventID : Event -> string;
  Event_Origin : Event -> ServerName;
  Event_OriginServerTS : Event -> Timestamp;
  Event_Redact : Event -> Event;
  Event_JSON : Event -> RawJSON;
  Event_Membership : Event -> error + string;
  NewAuthEvents : list Event -> AuthEvents;
  Allowed : Event -> AuthEvents -> option error
}.

(** The services behind [rsAPI] and [keys], and the clock.  Each call
    may change the world. *)
Class Services (World Event : Type) : Type := {
  rsAPI_QueryRoomVersionForRoom :
    api.QueryRoomVersionForRoomRequest -> World ->
    (error + api.QueryRoomVersionForRoomResponse) * World;
  rsAPI_BuildEvent :
    EventBuilder.t -> config.Dendrite -> Time -> World ->
    (error + (Event * BuilderAux.t * api.QueryLatestEventsAndStateResponse Event)) * World;
  keys_VerifyJSONs :
    list VerifyJSONRequest.t -> World -> (error + list VerifyJSONResult.t) * World;
  rsAPI_SendEvents :
    list (HeaderedEvent.t Event) -> ServerName -> option string -> World ->
    option error * World;
  time_Now : World -> Time
}.


(** ** The handlers *)

Module routing.
Section Handlers.
Context {World Event AuthEvents : Type}.
Context {lib : Gomatrixserverlib Event AuthEvents}.
Context {svc : Services World Event}.

Local Open Scope handler_scope.

Definition H (A : Type) : Type := Handler World Event A.

(** [util.GetLogger(ctx).WithError(err).Error(msg)] *)
Definition logError (err : error) (msg : string) : H unit :=
  perform (CallLogError err msg) (fun w => (tt, w)).

(** [rsAPI.QueryRoomVersionForRoom(ctx, &verReq, &verRes)] *)
Definition QueryRoomVersionForRoom (verReq : api.QueryRoomVersionForRoomRequest)
  : H (error + api.QueryRoomVersionForRoomResponse) :=
  perform (CallQueryRoomVersionForRoom verReq) (rsAPI_QueryRoomVersionForRoom verReq).

(** [builder.SetContent(content)]: the content is marshalled into the
    builder's [Content]. *)
Definition SetContent (builder : EventBuilder.t) (content : list (string * string))
  : option error * EventBuilder.t :=
  match json_Marshal content with
  | inr raw =>
      (None, EventBuilder.mk (EventBuilder.Sender builder) (EventBuilder.RoomID builder)
                             (EventBuilder.Type_ builder) (EventBuilder.StateKey builder)
                             raw (EventBuilder.Aux builder))
  | inl err => (Some err, builder)
  end.

(** Modelled from the spec: [eventutil.BuildEvent], which is in
    internal/eventutil and not in this file.  It is handed the builder
    by reference and, per the spec, draws the auxiliary state of the
    draft from the current room state; the room server decides what
    that state is, which event results, and whether building fails. *)
Definition BuildEvent (builder : EventBuilder.t) (cfg : config.Dendrite) (evTime : Time)
  : H (error + (Event * EventBuilder.t * api.QueryLatestEventsAndStateResponse Event)) :=
  r <- perform (CallBuildEvent builder cfg evTime) (rsAPI_BuildEvent builder cfg evTime) ;;
  ret match r with
      | inl err => inl err
      | inr (event, aux, queryRes) =>
          inr (event,
               EventBuilder.mk (EventBuilder.Sender builder) (EventBuilder.RoomID builder)
                               (EventBuilder.Type_ builder) (EventBuilder.StateKey builder)
                               (EventBuilder.Content builder) aux,
               queryRes)
      end.

(** [keys.VerifyJSONs(ctx, verifyRequests)] *)
Definition VerifyJSONs (verifyRequests : list VerifyJSONRequest.t)
  : H (error + list VerifyJSONResult.t) :=
  perform (CallVerifyJSONs verifyRequests) (keys_VerifyJSONs verifyRequests).

(** [api.SendEvents(ctx, rsAPI, events, sendAsServer, txnID)]; its first
    result is discarded by the caller. *)
Definition SendEvents (events : list (HeaderedEvent.t Event)) (sendAsServer : ServerName)
           (txnID : option string) : H (option error) :=
  perform (CallSendEvents events sendAsServer txnID)
          (rsAPI_SendEvents events sendAsServer txnID).

(** [event.Headered(roomVersion)] *)
Definition Headered (event : Event) (roomVersion : RoomVersion) : HeaderedEvent.t Event :=
  HeaderedEvent.mk roomVersion event.

(** [MakeLeave] implements the /make_leave API. *)
Definition MakeLeave (request : FederationRequest.t) (cfg : config.Dendrite)
           (roomID userID : string) : H util.JSONResponse :=
  let verReq := api.mkVerReq roomID in
  r <- QueryRoomVersionForRoom verReq ;;
  match r with
  | inl err =>
      ret (util.mk http.StatusInternalServerError (nested jsonerror.InternalServerError))
  | inr verRes =>
  match SplitID "@"%char userID with
  | inl err =>
      ret (util.mk http.StatusBadRequest (jsonerror.BadJSON "Invalid UserID"))
  | inr (_, domain) =>
  if negb (domain =? FederationRequest.Origin request)%string then
    ret (util.mk http.StatusForbidden
                 (jsonerror.Forbidden "The leave must be sent by the server of the user"))
  else
  (* Try building an event for the server *)
  let builder :=
    EventBuilder.mk userID roomID "m.room.member" (Some userID) "" BuilderAux.zero in
  let (err, builder) := SetContent builder [("membership", Leave)] in
  match err with
  | Some err =>
      logError err "builder.SetContent failed" ;;;
      ret jsonerror.InternalServerError
  | None =>
  now <- observe time_Now ;;
  r <- BuildEvent builder cfg now ;;
  match r with
  | inl err =>
      if is_ErrRoomNoExists err then
        ret (util.mk http.StatusNotFound (jsonerror.NotFound "Room does not exist"))
      else
        match as_BadJSONError err with
        | Some e => ret (util.mk http.StatusBadRequest (jsonerror.BadJSON (Error e)))
        | None =>
            logError err "eventutil.BuildEvent failed" ;;;
            ret jsonerror.InternalServerError
        end
  | inr (event, builder, queryRes) =>
  (* Check that the leave is allowed or not *)
  let stateEvents := map (@HeaderedEvent.Event_ Event) (api.StateEvents queryRes) in
  let provider := NewAuthEvents stateEvents in
  match Allowed event provider with
  | Some err => ret (util.mk http.StatusForbidden (jsonerror.Forbidden (Error err)))
  | None =>
      ret (util.mk http.StatusOK (JDraft (api.RoomVersion_ verRes) builder))
  end end end end end.

(** [SendLeave] implements the /send_leave API. *)
Definition SendLeave (request : FederationRequest.t) (cfg : config.Dendrite)
           (roomID eventID : string) : H util.JSONResponse :=
  let verReq := api.mkVerReq roomID in
  r <- QueryRoomVersionForRoom verReq ;;
  match r with
  | inl err =>
      ret (util.mk http.StatusBadRequest (jsonerror.UnsupportedRoomVersion (Error err)))
  | inr verRes =>
  (* Decode the event JSON from the request. *)
  match NewEventFromUntrustedJSON (FederationRequest.Content request)
                                  (api.RoomVersion_ verRes) with
  | inl err =>
      ret (util.mk http.StatusBadRequest
             (jsonerror.NotJSON
                ("The request body could not be decoded into valid JSON. " ++ Error err)))
  | inr event =>
  (* Check that the room ID is correct. *)
  if negb (Event_RoomID event =? roomID)%string then
    ret (util.mk http.StatusBadRequest
           (jsonerror.BadJSON
              "The room ID in the request path must match the room ID in the leave event JSON"))
  else
  (* Check that the event ID is correct. *)
  if negb (Event_EventID event =? eventID)%string then
    ret (util.mk http.StatusBadRequest
           (jsonerror.BadJSON
              "The event ID in the request path must match the event ID in the leave event JSON"))
  else
  (* Check that the event is from the server sending the request. *)
  if negb (Event_Origin event =? FederationRequest.Origin request)%string then
    ret (util.mk http.StatusForbidden
           (jsonerror.Forbidden "The leave must be sent by the server it originated on"))
  else
  (* Check that the event is signed by the server sending the request. *)
  let redacted := Event_Redact event in
  let verifyRequests :=
    [ VerifyJSONRequest.mk (Event_Origin event) (Event_JSON redacted)
                           (Event_OriginServerTS event) true ] in
  r <- VerifyJSONs verifyRequests ;;
  match r with
  | inl err =>
      logError err "keys.VerifyJSONs failed" ;;;
      ret jsonerror.InternalServerError
  | inr verifyResults =>
  match verifyResults with
  | [] => panic "index out of range [0] with length 0"
  | result0 :: _ =>
  match VerifyJSONResult.Error_ result0 with
  | Some _ =>
      ret (util.mk http.StatusForbidden
             (jsonerror.Forbidden "The leave must be signed by the server it originated on"))
  | None =>
  (* check membership is set to leave *)
  match Event_Membership event with
  | inl err =>
      logError err "event.Membership failed" ;;;
      ret jsonerror.InternalServerError
  | inr mem =>
  if negb (mem =? Leave)%string then
    ret (util.mk http.StatusBadRequest
           (jsonerror.BadJSON "The membership in the event content must be set to leave"))
  else
  (* Send the events to the room server.  We are responsible for notifying
     other servers that the user has left the room, so set SendAsServer to
     cfg.Matrix.ServerName *)
  err <- SendEvents [ Headered event (api.RoomVersion_ verRes) ]
                    (config.ServerName_ (config.Matrix_ cfg)) None ;;
  match err with
  | Some err =>
      logError err "producer.SendEvents failed" ;;;
      ret jsonerror.InternalServerError
  | None => ret (util.mk http.StatusOK JEmpty)
  end end end end end end end.

End Handlers.
End routing.


(** ** The failures of the handshake, as the responses that carry them *)

Module Failure.
(** [MakeLeave], resolver error: status 500 around a nested
    [jsonerror.InternalServerError()]. *)
Definition ResolverFailure : util.JSONResponse :=
  util.mk http.StatusInternalServerError (nested jsonerror.InternalServerError).
Definition InternalFailure : util.JSONResponse := jsonerror.InternalServerError.
Definition InvalidUserID : util.JSONResponse :=
  util.mk http.StatusBadRequest (jsonerror.BadJSON "Invalid UserID").
Definition DraftOriginMismatch : util.JSONResponse :=
  util.mk http.StatusForbidden
          (jsonerror.Forbidden "The leave must be sent by the server of the user").
Definition RoomUnknown : util.JSONResponse :=
  util.mk http.StatusNotFound (jsonerror.NotFound "Room does not exist").
Definition RoomIdMismatch : util.JSONResponse :=
  util.mk http.StatusBadRequest
    (jsonerror.BadJSON
       "The room ID in the request path must match the room ID in the leave event JSON").
Definition EventIdMismatch : util.JSONResponse :=
  util.mk http.StatusBadRequest
    (jsonerror.BadJSON
       "The event ID in the request path must match the event ID in the leave event JSON").
Definition OriginMismatch : util.JSONResponse :=
  util.mk http.StatusForbidden
          (jsonerror.Forbidden "The leave must be sent by the server it originated on").
Definition SignatureInvalid : util.JSONResponse :=
  util.mk http.StatusForbidden
          (jsonerror.Forbidden "The leave must be signed by the server it originated on").
Definition MembershipMismatch : util.JSONResponse :=
  util.mk http.StatusBadRequest
          (jsonerror.BadJSON "The membership in the event content must be set to leave").
End Failure.

(** ** Kinds of calls *)

(** A submission to the Event Ingestion Service. *)
Definition is_submission {Event} (c : Call Event) : bool :=
  match c with CallSendEvents _ _ _ => true | _ => false end.

(** A read of the room server: the version of a room, or its current
    state while a draft is built. *)
Definition is_room_query {Event} (c : Call Event) : bool :=
  match c with
  | CallQueryRoomVersionForRoom _ | CallBuildEvent _ _ _ => true
  | _ => false
  end.

Definition is_version_query {Event} (c : Call Event) : bool :=
  match c with CallQueryRoomVersionForRoom _ => true | _ => false end.

Definition is_verification {Event} (c : Call Event) : bool :=
  match c with CallVerifyJSONs _ => true | _ => false end.

Definition is_log {Event} (c : Call Event) : bool :=
  match c with CallLogError _ _ => true | _ => false end.

(** The same services behind another key ring. *)
Definition with_keys {World Event} (svc : Services World Event)
           (verifier : list VerifyJSONRequest.t -> World ->
                       (error + list VerifyJSONResult.t) * World)
  : Services World Event := {|
  rsAPI_QueryRoomVersionForRoom := rsAPI_QueryRoomVersionForRoom;
  rsAPI_BuildEvent := rsAPI_BuildEvent;
  keys_VerifyJSONs := verifier;
  rsAPI_SendEvents := rsAPI_SendEvents;
  time_Now := time_Now
|}.

(** The same services in front of another Event Ingestion Service. *)
Definition with_ingestion {World Event} (svc : Services World Event)
           (ingest : list (HeaderedEvent.t Event) -> ServerName -> option string -> World ->
                     option error * World)
  : Services World Event := {|
  rsAPI_QueryRoomVersionForRoom := rsAPI_QueryRoomVersionForRoom;
  rsAPI_BuildEvent := rsAPI_BuildEvent;
  keys_VerifyJSONs := keys_VerifyJSONs;
  rsAPI_SendEvents := ingest;
  time_Now := time_Now
|}.

(** The draft [MakeLeave] starts from, once its content is set. *)
Definition leave_builder (roomID userID : string) (content : RawJSON) (aux : BuilderAux.t)
  : EventBuilder.t :=
  EventBuilder.mk userID roomID "m.room.member" (Some userID) content aux.

(** The one request [SendLeave] hands to the key ring. *)
Definition leave_verify_requests {Event AuthEvents} {lib : Gomatrixserverlib Event AuthEvents}
           (event : Event) : list VerifyJSONRequest.t :=
  [ VerifyJSONRequest.mk (Event_Origin event) (Event_JSON (Event_Redact event))
                         (Event_OriginServerTS event) true ].

(** ** A reference implementation of the collaborators

    A small in-memory room server, key ring and event library, used to
    run the handlers on concrete requests. *)

Module Fake.

Record Event : Type := mkEvent {
  fRoomID : string;
  fEventID : string;
  fSender : string;
  fOrigin : ServerName;
  fOriginServerTS : Timestamp;
  fMembership : option string;
  fJSON : RawJSON;
  fRedacted : bool
}.

Fixpoint assoc {A : Type} (k : string) (l : list (string * A)) : option A :=
  match l with
  | [] => None
  | (k', a) :: rest => if (k =? k')%string then Some a else assoc k rest
  end.

(** The text before and after the first [":"]. *)
Fixpoint cut_at_colon (s : string) : option (string * string) :=
  match s with
  | EmptyString => None
  | String c rest =>
      if (c =? ":")%char then Some (EmptyString, rest)
      else match cut_at_colon rest with
           | Some (l, d) => Some (String c l, d)
           | None => None
           end
  end.

(** [gomatrixserverlib.SplitID]: SIGIL LOCALPART ":" DOMAIN, split at the
    first colon. *)
Definition split_id (sigil : ascii) (id : string) : error + (string * ServerName) :=
  match id with
  | EmptyString => inl (errors_New "invalid ID: does not start with the sigil")
  | String c rest =>
      if (c =? sigil)%char then
        match cut_at_colon rest with
        | Some (l, d) => inr (l, d)
        | None => inl (errors_New "invalid ID: missing colon")
        end
      else inl (errors_New "invalid ID: does not start with the sigil")
  end.

Fixpoint render (content : list (string * string)) : string :=
  match content with
  | [] => ""
  | (k, v) :: rest => k ++ "=" ++ v ++ ";" ++ render rest
  end.

(** A leave is allowed when the sender has a state event in the room. *)
Definition allowed (event : Event) (provider : list Event) : option error :=
  if existsb (fun e => (fSender e =? fSender event)%string) provider then None
  else Some (errors_New "sender is not in the room").

(** The event library over a table that decodes request bodies. *)
Definition lib (wire : list (RawJSON * Event)) : Gomatrixserverlib Event (list Event) := {|
  SplitID := split_id;
  json_Marshal := fun content => inr (render content);
  NewEventFromUntrustedJSON := fun content _ =>
    match assoc content wire with
    | Some e => inr e
    | None => inl (errors_New "unexpected end of JSON input")
    end;
  Event_RoomID := fRoomID;
  Event_EventID := fEventID;
  Event_Origin := fOrigin;
  Event_OriginServerTS := fOriginServerTS;
  Event_Redact := fun e =>
    mkEvent (fRoomID e) (fEventID e) (fSender e) (fOrigin e) (fOriginServerTS e)
            (fMembership e) (fJSON e) true;
  Event_JSON := fJSON;
  Event_Membership := fun e =>
    match fMembership e with
    | Some m => inr m
    | None => inl (errors_New "not an m.room.member event")
    end;
  NewAuthEvents := fun l => l;
  Allowed := allowed
|}.

(** Modelled from the spec: the Room Version Resolver answers with a
    version, with room-unknown, or with a transport error; the last two
    reach the handlers as the error of [QueryRoomVersionForRoom]. *)
Record World : Type := mkWorld {
  resolver_up : bool;
  versions : list (string * RoomVersion);
  state : list (string * list Event);
  keys_up : bool;
  signed : list (ServerName * RawJSON);
  ingest_up : bool;
  persisted : list (HeaderedEvent.t Event);
  clock : Time
}.

Definition set_persisted (w : World) (p : list (HeaderedEvent.t Event)) : World :=
  mkWorld (resolver_up w) (versions w) (state w) (keys_up w) (signed w) (ingest_up w)
          p (clock w).

Definition query_version (req : api.QueryRoomVersionForRoomRequest) (w : World)
  : (error + api.QueryRoomVersionForRoomResponse) * World :=
  if resolver_up w then
    match assoc (api.RoomID req) (versions w) with
    | Some v => (inr (api.mkVerRes v), w)
    | None => (inl (errors_New "room not found"), w)
    end
  else (inl (errors_New "connection refused"), w).

Definition build_event (builder : EventBuilder.t) (cfg : config.Dendrite) (evTime : Time)
           (w : World)
  : (error + (Event * BuilderAux.t * api.QueryLatestEventsAndStateResponse Event)) * World :=
  match assoc (EventBuilder.RoomID builder) (state w),
        assoc (EventBuilder.RoomID builder) (versions w) with
  | Some st, Some v =>
      (inr (mkEvent (EventBuilder.RoomID builder) "$draft" (EventBuilder.Sender builder)
                    (config.ServerName_ (config.Matrix_ cfg)) evTime (Some Leave)
                    (EventBuilder.Content builder) false,
            BuilderAux.mk (map fEventID st) (map fEventID st) (Z.of_nat (length st)),
            api.mkQueryRes (map (HeaderedEvent.mk v) st)), w)
  | _, _ => (inl (mkError IsErrRoomNoExists "Room does not exist"), w)
  end.

Definition verify_one (w : World) (r : VerifyJSONRequest.t) : VerifyJSONResult.t :=
  VerifyJSONResult.mk
    (if existsb (fun sm => (fst sm =? VerifyJSONRequest.ServerName_ r)%string
                           && (snd sm =? VerifyJSONRequest.Message r)%string) (signed w)
     then None else Some (errors_New "bad signature")).

Definition verify (reqs : list VerifyJSONRequest.t) (w : World)
  : (error + list VerifyJSONResult.t) * World :=
  if keys_up w then (inr (map (verify_one w) reqs), w)
  else (inl (errors_New "key server unreachable"), w).

Definition send_events (events : list (HeaderedEvent.t Event)) (sendAsServer : ServerName)
           (txnID : option string) (w : World) : option error * World :=
  if ingest_up w then (None, set_persisted w (persisted w ++ events)%list)
  else (Some (errors_New "input API unavailable"), w).

Definition svc : Services World Event := {|
  rsAPI_QueryRoomVersionForRoom := query_version;
  rsAPI_BuildEvent := build_event;
  keys_VerifyJSONs := verify;
  rsAPI_SendEvents := send_events;
  time_Now := clock
|}.

(** The scenario of the handshake: room [!r:a.org] at version 1 on the
    resident server a.org, user [@u:b.org], signed event [$e1]. *)
Definition cfg : config.Dendrite := config.mkDendrite (config.mkMatrix "a.org").

Definition member : Event :=
  mkEvent "!r:a.org" "$m0" "@u:b.org" "b.org" 10 (Some "join") "join-json" false.

Definition e1 : Event :=
  mkEvent "!r:a.org" "$e1" "@u:b.org" "b.org" 20 (Some "leave") "leave-json" false.

(** The same event with membership join. *)
Definition e2 : Event :=
  mkEvent "!r:a.org" "$e2" "@u:b.org" "b.org" 20 (Some "join") "rejoin-json" false.

Definition wire : list (RawJSON * Event) := [("payload-e1", e1); ("payload-e2", e2)].

Definition world : World :=
  mkWorld true [("!r:a.org", "1")] [("!r:a.org", [member])] true
          [("b.org", "leave-json"); ("b.org", "rejoin-json")] true [] 100.

(** The resolver does not know the room. *)
Definition world_unknown_room : World :=
  mkWorld true [] [] true [("b.org", "leave-json")] true [] 100.

(** The resolver cannot be reached. *)
Definition world_resolver_down : World :=
  mkWorld false [("!r:a.org", "1")] [("!r:a.org", [member])] true
          [("b.org", "leave-json")] true [] 100.

(** The key server cannot be reached. *)
Definition world_keys_down : World :=
  mkWorld true [("!r:a.org", "1")] [("!r:a.org", [member])] false
          [("b.org", "leave-json")] true [] 100.

(** No signature of b.org is known. *)
Definition world_unsigned : World :=
  mkWorld true [("!r:a.org", "1")] [("!r:a.org", [member])] true [] true [] 100.

(** The room has a version but no state to build against. *)
Definition world_no_state : World :=
  mkWorld true [("!r:a.org", "1")] [] true [] true [] 100.

(** The draft expected for [@u:b.org] leaving [!r:a.org]. *)
Definition draft : util.JSONResponse :=
  util.mk 200 (JDraft "1" (leave_builder "!r:a.org" "@u:b.org" "membership=leave;"
                                         (BuilderAux.mk ["$m0"] ["$m0"] 1))).

Definition from_b (body : RawJSON) : FederationRequest.t := FederationRequest.mk "b.org" body.
Definition from_c (body : RawJSON) : FederationRequest.t := FederationRequest.mk "c.org" body.

Definition MakeLeave (request : FederationRequest.t) (roomID userID : string) (w : World) :=
  routing.MakeLeave (lib := lib wire) (svc := svc) request cfg roomID userID w.

Definition SendLeave (request : FederationRequest.t) (roomID eventID : string) (w : World) :=
  routing.SendLeave (lib := lib wire) (svc := svc) request cfg roomID eventID w.

End Fake.

(** ** Shapes of a run *)

(** What a call is, without its arguments. *)
Inductive CallKind : Type :=
| VersionQuery
| DraftBuild
| Verification
| Submission
| LogEntry.

Definition kind {Event} (c : Call Event) : CallKind :=
  match c with
  | CallQueryRoomVersionForRoom _ => VersionQuery
  | CallBuildEvent _ _ _ => DraftBuild
  | CallVerifyJSONs _ => Verification
  | CallSendEvents _ _ _ => Submission
  | CallLogError _ _ => LogEntry
  end.

(** The same services with another way of building events. *)
Definition with_build {World Event} (svc : Services World Event)
           (build : EventBuilder.t -> config.Dendrite -> Time -> World ->
                    (error + (Event * BuilderAux.t
                              * api.QueryLatestEventsAndStateResponse Event)) * World)
  : Services World Event := {|
  rsAPI_QueryRoomVersionForRoom := rsAPI_QueryRoomVersionForRoom;
  rsAPI_BuildEvent := build;
  keys_VerifyJSONs := keys_VerifyJSONs;
  rsAPI_SendEvents := rsAPI_SendEvents;
  time_Now := time_Now
|}.

(** The same event library with another JSON encoder. *)
Definition with_encoder {Event AuthEvents} (lib : Gomatrixserverlib Event AuthEvents)
           (encode : list (string * string) -> error + RawJSON)
  : Gomatrixserverlib Event AuthEvents := {|
  SplitID := SplitID;
  json_Marshal := encode;
  NewEventFromUntrustedJSON := NewEventFromUntrustedJSON;
  Event_RoomID := Event_RoomID;
  Event_EventID := Event_EventID;
  Event_Origin := Event_Origin;
  Event_OriginServerTS := Event_OriginServerTS;
  Event_Redact := Event_Redact;
  Event_JSON := Event_JSON;
  Event_Membership := Event_Membership;
  NewAuthEvents := NewAuthEvents;
  Allowed := Allowed
|}.

(** The same event library with another parser of request bodies. *)
Definition with_parser {Event AuthEvents} (lib : Gomatrixserverlib Event AuthEvents)
           (parse : RawJSON -> RoomVersion -> error + Event)
  : Gomatrixserverlib Event AuthEvents := {|
  SplitID := SplitID;
  json_Marshal := json_Marshal;
  NewEventFromUntrustedJSON := parse;
  Event_RoomID := Event_RoomID;
  Event_EventID := Event_EventID;
  Event_Origin := Event_Origin;
  Event_OriginServerTS := Event_OriginServerTS;
  Event_Redact := Event_Redact;
  Event_JSON := Event_JSON;
  Event_Membership := Event_Membership;
  NewAuthEvents := NewAuthEvents;
  Allowed := Allowed
|}.

(** ** Faulty collaborators

    Variants of the reference implementation in which one collaborator
    fails, to run the error branches of the handlers. *)

Module Faults.

(** An event of another type: its membership cannot be read. *)
Definition e3 : Fake.Event :=
  Fake.mkEvent "!r:a.org" "$e3" "@u:b.org" "b.org" 20 None "leave-json" false.

Definition wire : list (RawJSON * Fake.Event) := (Fake.wire ++ [("payload-e3", e3)])%list.

Definition lib : Gomatrixserverlib Fake.Event (list Fake.Event) := Fake.lib wire.

(** The encoder rejects every content. *)
Definition lib_no_encoder : Gomatrixserverlib Fake.Event (list Fake.Event) :=
  with_encoder lib (fun _ => inl (errors_New "json: unsupported value")).

(** Building an event fails with [err]. *)
Definition svc_build_fails (err : error) : Services Fake.World Fake.Event :=
  with_build Fake.svc (fun _ _ _ w => (inl err, w)).

(** The key ring answers without an error and without a result. *)
Definition svc_no_verdict : Services Fake.World Fake.Event :=
  with_keys Fake.svc (fun _ w => (inr [], w)).

(** The Event Ingestion Service cannot be reached. *)
Definition world_ingest_down : Fake.World :=
  Fake.mkWorld true [("!r:a.org", "1")] [("!r:a.org", [Fake.member])] true
               [("b.org", "leave-json")] false [] 100.

(** A parser that knows version 1 as the reference parser does and
    rejects every body under any other version. *)
Definition parse_v1_only (content : RawJSON) (version : RoomVersion)
  : error + Fake.Event :=
  if (version =? "1")%string then
    NewEventFromUntrustedJSON (Gomatrixserverlib := Fake.lib Fake.wire) content version
  else inl (errors_New "unsupported room version").

(** The only member of the room is another user. *)
Definition stranger : Fake.Event :=
  Fake.mkEvent "!r:a.org" "$m1" "@v:a.org" "a.org" 10 (Some "join") "join-json" false.

Definition world_stranger : Fake.World :=
  Fake.mkWorld true [("!r:a.org", "1")] [("!r:a.org", [stranger])] true [] true [] 100.

End Faults.

(** ** Proof steps *)

Ltac unfold_handler :=
  unfold Fake.MakeLeave, Fake.SendLeave,
    routing.MakeLeave, routing.SendLeave, routing.QueryRoomVersionForRoom,
    routing.BuildEvent, routing.VerifyJSONs, routing.SendEvents, routing.SetContent,
    routing.logError, routing.Headered, response, calls,
    bind, ret, panic, perform, observe.

Lemma negb_eqb_false (a b : string) : negb (a =? b)%string = false -> a = b.
Proof.
  intros Hn. apply negb_false_iff in Hn. now apply String.eqb_eq.
Qed.

Lemma negb_eqb_true (a b : string) : a <> b -> negb (a =? b)%string = true.
Proof.
  intros Hn. apply negb_true_iff. now apply String.eqb_neq.
Qed.

Lemma negb_eqb_refl (a : string) : negb (a =? a)%string = false.
Proof.
  now rewrite String.eqb_refl.
Qed.

(** ** DraftLeave *)

Section MakeLeaveFacts.
Context {World Event AuthEvents : Type}.
Context {lib : Gomatrixserverlib Event AuthEvents}.
Context {svc : Services World Event}.

Variables (request : FederationRequest.t) (cfg : config.Dendrite).
Variables (roomID userID : string).

(** X7: a not-found answer of [MakeLeave] comes from event
    construction: the resolver had answered with a version, the user
    identifier had split into a domain equal to the caller, the content
    had been encoded, and [BuildEvent] reported [ErrRoomNoExists]; the
    run is then the version query, the build and the not-found answer. *)
Lemma MakeLeave_not_found_comes_from_BuildEvent (w : World) (r : util.JSONResponse) :
  response (routing.MakeLeave request cfg roomID userID w) = Returned r ->
  util.Code r = http.StatusNotFound ->
  exists verRes w1 localpart content err w2,
    rsAPI_QueryRoomVersionForRoom (api.mkVerReq roomID) w = (inr verRes, w1)
    /\ SplitID "@" userID = inr (localpart, FederationRequest.Origin request)
    /\ json_Marshal [("membership", Leave)] = inr content
    /\ rsAPI_BuildEvent (leave_builder roomID userID content BuilderAux.zero) cfg
                        (time_Now w1) w1 = (inl err, w2)
    /\ is_ErrRoomNoExists err = true
    /\ r = Failure.RoomUnknown
    /\ routing.MakeLeave request cfg roomID userID w
       = (Returned Failure.RoomUnknown, w2,
          [ CallQueryRoomVersionForRoom (api.mkVerReq roomID);
            CallBuildEvent (leave_builder roomID userID content BuilderAux.zero) cfg
                           (time_Now w1) ]).
Proof.
  unfold_handler. unfold leave_builder. intros Hrun Hcode.
  destruct (rsAPI_QueryRoomVersionForRoom (api.mkVerReq roomID) w) as [[err | verRes] w1] eqn:Hq;
    simpl in Hrun |- *.
  - injection Hrun as <-. discriminate Hcode.
  - destruct (SplitID "@" userID) as [err | [localpart domain]] eqn:Hsplit; simpl in Hrun |- *.
    + injection Hrun as <-. discriminate Hcode.
    + destruct (negb (domain =? FederationRequest.Origin request)%string) eqn:Hdomain;
        simpl in Hrun |- *.
      * injection Hrun as <-. discriminate Hcode.
      * apply negb_eqb_false in Hdomain. subst domain.
        destruct (json_Marshal [("membership", Leave)]) as [err | content] eqn:Hjson;
          simpl in Hrun |- *.
        { injection Hrun as <-. discriminate Hcode. }
        destruct (rsAPI_BuildEvent _ cfg (time_Now w1) w1) as [[err | [[event aux] queryRes]] w2]
          eqn:Hb; simpl in Hrun |- *.
        { destruct (is_ErrRoomNoExists err) eqn:Hsentinel; simpl in Hrun |- *.
          - injection Hrun as <-.
            exists verRes, w1, localpart, content, err, w2. repeat split; auto.
          - destruct (as_BadJSONError err); simpl in Hrun;
              injection Hrun as <-; discriminate Hcode. }
        destruct (Allowed event _); simpl in Hrun; injection Hrun as <-; discriminate Hcode.
Qed.

(** C1, as the code has it: every error of the Room Version Resolver,
    whatever its cause, makes DraftLeave fail with the internal-failure
    response (status 500) right after that one call; the answer does not
    depend on the error and is never the not-found response. *)
Theorem MakeLeave_resolver_error_is_internal_failure (w w1 : World) (err : error) :
  rsAPI_QueryRoomVersionForRoom (api.mkVerReq roomID) w = (inl err, w1) ->
  routing.MakeLeave request cfg roomID userID w
  = (Returned Failure.ResolverFailure, w1,
     [CallQueryRoomVersionForRoom (api.mkVerReq roomID)])
  /\ util.Code Failure.ResolverFailure = http.StatusInternalServerError
  /\ Failure.ResolverFailure <> Failure.RoomUnknown.
Proof.
  intros Hq. unfold_handler. rewrite Hq. simpl.
  repeat split; try reflexivity. discriminate.
Qed.

(** C5, as the code has it: once the room version has been resolved, a
    well-formed user identifier whose domain is not the calling server
    makes DraftLeave fail with the forbidden origin-mismatch response;
    the room state is never read. *)
Theorem MakeLeave_foreign_user_is_forbidden
        (w w1 : World) (verRes : api.QueryRoomVersionForRoomResponse)
        (localpart : string) (domain : ServerName) :
  rsAPI_QueryRoomVersionForRoom (api.mkVerReq roomID) w = (inr verRes, w1) ->
  SplitID "@" userID = inr (localpart, domain) ->
  domain <> FederationRequest.Origin request ->
  routing.MakeLeave request cfg roomID userID w
  = (Returned Failure.DraftOriginMismatch, w1,
     [CallQueryRoomVersionForRoom (api.mkVerReq roomID)])
  /\ util.Code Failure.DraftOriginMismatch = http.StatusForbidden.
Proof.
  intros Hq Hsplit Hdomain. unfold_handler. rewrite Hq. simpl.
  rewrite Hsplit, (negb_eqb_true Hdomain). simpl. split; reflexivity.
Qed.

(** C10, as the code has it: once the room version has been resolved, a
    user identifier that [SplitID] rejects makes DraftLeave fail with the
    bad-request response "Invalid UserID", which is not the
    origin-mismatch response; the caller's identity plays no part. *)
Theorem MakeLeave_malformed_user_is_bad_request
        (w w1 : World) (verRes : api.QueryRoomVersionForRoomResponse) (err : error) :
  rsAPI_QueryRoomVersionForRoom (api.mkVerReq roomID) w = (inr verRes, w1) ->
  SplitID "@" userID = inl err ->
  routing.MakeLeave request cfg roomID userID w
  = (Returned Failure.InvalidUserID, w1,
     [CallQueryRoomVersionForRoom (api.mkVerReq roomID)])
  /\ util.Code Failure.InvalidUserID = http.StatusBadRequest
  /\ Failure.InvalidUserID <> Failure.DraftOriginMismatch
  /\ forall request' : FederationRequest.t,
       routing.MakeLeave request' cfg roomID userID w
       = routing.MakeLeave request cfg roomID userID w.
Proof.
  intros Hq Hsplit. unfold_handler. rewrite Hq. simpl. rewrite Hsplit. simpl.
  repeat split; try reflexivity. discriminate.
Qed.

(** C8: whatever DraftLeave answers, the calls it makes are reads of the
    room server and log entries; none is a submission to the Event
    Ingestion Service, and the whole run, the world it leaves included,
    is the same in front of any Event Ingestion Service. *)
Theorem MakeLeave_never_submits (w : World) :
  Forall (fun c => is_submission c = false /\ (is_room_query c || is_log c = true))
         (calls (routing.MakeLeave request cfg roomID userID w))
  /\ forall ingest,
       routing.MakeLeave (svc := with_ingestion svc ingest) request cfg roomID userID w
       = routing.MakeLeave request cfg roomID userID w.
Proof.
  split; [| reflexivity].
  unfold_handler.
  destruct (rsAPI_QueryRoomVersionForRoom (api.mkVerReq roomID) w) as [[err | verRes] w1];
    simpl; [repeat constructor |].
  destruct (SplitID "@" userID) as [err | [localpart domain]]; simpl; [repeat constructor |].
  destruct (negb (domain =? FederationRequest.Origin request)%string); simpl;
    [repeat constructor |].
  destruct (json_Marshal [("membership", Leave)]) as [err | content]; simpl;
    [repeat constructor |].
  destruct (rsAPI_BuildEvent _ cfg (time_Now w1) w1) as [[err | [[event aux] queryRes]] w2];
    simpl.
  - destruct (is_ErrRoomNoExists err); simpl; [repeat constructor |].
    destruct (as_BadJSONError err); simpl; repeat constructor.
  - destruct (Allowed event _); simpl; repeat constructor.
Qed.

(** C4: a successful DraftLeave went through every step.  The template
    in the answer has the user as sender and as state key, its content
    is the encoding of membership leave, its auxiliary fields are what
    the room server drew from the room state, and the event built from
    it passed the authorization rules against the state events of that
    same build. *)
Theorem MakeLeave_success_is_an_authorized_leave_draft (w : World) (r : util.JSONResponse) :
  response (routing.MakeLeave request cfg roomID userID w) = Returned r ->
  util.Code r = http.StatusOK ->
  exists verRes w1 localpart content event aux queryRes w2 template,
    rsAPI_QueryRoomVersionForRoom (api.mkVerReq roomID) w = (inr verRes, w1)
    /\ SplitID "@" userID = inr (localpart, FederationRequest.Origin request)
    /\ json_Marshal [("membership", Leave)] = inr content
    /\ rsAPI_BuildEvent (leave_builder roomID userID content BuilderAux.zero) cfg
                        (time_Now w1) w1 = (inr (event, aux, queryRes), w2)
    /\ Allowed event
               (NewAuthEvents (map (@HeaderedEvent.Event_ Event) (api.StateEvents queryRes)))
       = None
    /\ r = util.mk http.StatusOK (JDraft (api.RoomVersion_ verRes) template)
    /\ template = leave_builder roomID userID content aux
    /\ EventBuilder.Sender template = userID
    /\ EventBuilder.StateKey template = Some userID
    /\ EventBuilder.Content template = content
    /\ EventBuilder.RoomID template = roomID.
Proof.
  unfold_handler. intros Hrun Hcode.
  destruct (rsAPI_QueryRoomVersionForRoom (api.mkVerReq roomID) w) as [[err | verRes] w1] eqn:Hq;
    simpl in Hrun.
  { injection Hrun as <-. discriminate Hcode. }
  destruct (SplitID "@" userID) as [err | [localpart domain]] eqn:Hsplit; simpl in Hrun.
  { injection Hrun as <-. discriminate Hcode. }
  destruct (negb (domain =? FederationRequest.Origin request)%string) eqn:Hdomain;
    simpl in Hrun.
  { injection Hrun as <-. discriminate Hcode. }
  apply negb_eqb_false in Hdomain. subst domain.
  destruct (json_Marshal [("membership", Leave)]) as [err | content] eqn:Hjson; simpl in Hrun.
  { injection Hrun as <-. discriminate Hcode. }
  destruct (rsAPI_BuildEvent _ cfg (time_Now w1) w1) as [[err | [[event aux] queryRes]] w2]
    eqn:Hb; simpl in Hrun.
  { destruct (is_ErrRoomNoExists err); simpl in Hrun.
    - injection Hrun as <-. discriminate Hcode.
    - destruct (as_BadJSONError err); simpl in Hrun;
        injection Hrun as <-; discriminate Hcode. }
  destruct (Allowed event _) eqn:Hauth; simpl in Hrun; injection Hrun as <-.
  { discriminate Hcode. }
  exists verRes, w1, localpart, content, event, aux, queryRes, w2,
    (leave_builder roomID userID content aux).
  repeat split; assumption || reflexivity.
Qed.

End MakeLeaveFacts.

(** ** SubmitLeave *)

Section SendLeaveFacts.
Context {World Event AuthEvents : Type}.
Context {lib : Gomatrixserverlib Event AuthEvents}.
Context {svc : Services World Event}.

Variables (request : FederationRequest.t) (cfg : config.Dendrite).
Variables (roomID eventID : string).

(** The answer and the calls once the room version is resolved, the
    body parsed, and the three cross-checks passed: what is left is the
    signature check, the membership check and the submission. *)
Lemma SendLeave_after_cross_checks
      (w w1 : World) (verRes : api.QueryRoomVersionForRoomResponse) (event : Event) :
  rsAPI_QueryRoomVersionForRoom (api.mkVerReq roomID) w = (inr verRes, w1) ->
  NewEventFromUntrustedJSON (FederationRequest.Content request) (api.RoomVersion_ verRes)
  = inr event ->
  Event_RoomID event = roomID ->
  Event_EventID event = eventID ->
  Event_Origin event = FederationRequest.Origin request ->
  routing.SendLeave request cfg roomID eventID w
  = match keys_VerifyJSONs (leave_verify_requests event) w1 with
    | (inl err, w2) =>
        (Returned Failure.InternalFailure, w2,
         [ CallQueryRoomVersionForRoom (api.mkVerReq roomID);
           CallVerifyJSONs (leave_verify_requests event);
           CallLogError err "keys.VerifyJSONs failed" ])
    | (inr [], w2) =>
        (Panicked "index out of range [0] with length 0", w2,
         [ CallQueryRoomVersionForRoom (api.mkVerReq roomID);
           CallVerifyJSONs (leave_verify_requests event) ])
    | (inr (result0 :: _), w2) =>
        match VerifyJSONResult.Error_ result0 with
        | Some _ =>
            (Returned Failure.SignatureInvalid, w2,
             [ CallQueryRoomVersionForRoom (api.mkVerReq roomID);
               CallVerifyJSONs (leave_verify_requests event) ])
        | None =>
            match Event_Membership event with
            | inl err =>
                (Returned Failure.InternalFailure, w2,
                 [ CallQueryRoomVersionForRoom (api.mkVerReq roomID);
                   CallVerifyJSONs (leave_verify_requests event);
                   CallLogError err "event.Membership failed" ])
            | inr mem =>
                if negb (mem =? Leave)%string then
                  (Returned Failure.MembershipMismatch, w2,
                   [ CallQueryRoomVersionForRoom (api.mkVerReq roomID);
                     CallVerifyJSONs (leave_verify_requests event) ])
                else
                  let events := [ HeaderedEvent.mk (api.RoomVersion_ verRes) event ] in
                  let sendAsServer := config.ServerName_ (config.Matrix_ cfg) in
                  match rsAPI_SendEvents events sendAsServer None w2 with
                  | (Some err, w3) =>
                      (Returned Failure.InternalFailure, w3,
                       [ CallQueryRoomVersionForRoom (api.mkVerReq roomID);
                         CallVerifyJSONs (leave_verify_requests event);
                         CallSendEvents events sendAsServer None;
                         CallLogError err "producer.SendEvents failed" ])
                  | (None, w3) =>
                      (Returned (util.mk http.StatusOK JEmpty), w3,
                       [ CallQueryRoomVersionForRoom (api.mkVerReq roomID);
                         CallVerifyJSONs (leave_verify_requests event);
                         CallSendEvents events sendAsServer None ])
                  end
            end
        end
    end.
Proof.
  intros Hq Hparse Hroom Hevent Horigin. unfold_handler. unfold leave_verify_requests.
  rewrite Hq. simpl. rewrite Hparse, Hroom, Hevent, Horigin, !negb_eqb_refl. simpl.
  rewrite <- Horigin.
  destruct (keys_VerifyJSONs _ w1) as [[err | [| result0 rest]] w2]; simpl; try reflexivity.
  destruct (VerifyJSONResult.Error_ result0); simpl; try reflexivity.
  destruct (Event_Membership event) as [err | mem]; simpl; try reflexivity.
  destruct (negb (mem =? Leave)%string); simpl; try reflexivity.
  destruct (rsAPI_SendEvents _ _ None w2) as [[err |] w3]; reflexivity.
Qed.

(** The answer and the single call when a cross-check fails. *)
Lemma SendLeave_at_cross_checks
      (w w1 : World) (verRes : api.QueryRoomVersionForRoomResponse) (event : Event) :
  rsAPI_QueryRoomVersionForRoom (api.mkVerReq roomID) w = (inr verRes, w1) ->
  NewEventFromUntrustedJSON (FederationRequest.Content request) (api.RoomVersion_ verRes)
  = inr event ->
  Event_RoomID event <> roomID \/ Event_EventID event <> eventID
  \/ Event_Origin event <> FederationRequest.Origin request ->
  routing.SendLeave request cfg roomID eventID w
  = (Returned
       (if negb (Event_RoomID event =? roomID)%string then Failure.RoomIdMismatch
        else if negb (Event_EventID event =? eventID)%string then Failure.EventIdMismatch
             else Failure.OriginMismatch),
     w1, [CallQueryRoomVersionForRoom (api.mkVerReq roomID)]).
Proof.
  intros Hq Hparse Hmismatch. unfold_handler. rewrite Hq. simpl. rewrite Hparse.
  destruct (negb (Event_RoomID event =? roomID)%string) eqn:Hroom; simpl; [reflexivity |].
  destruct (negb (Event_EventID event =? eventID)%string) eqn:Hevent; simpl; [reflexivity |].
  destruct (negb (Event_Origin event =? FederationRequest.Origin request)%string) eqn:Horigin;
    simpl; [reflexivity |].
  apply negb_eqb_false in Hroom, Hevent, Horigin. tauto.
Qed.

(** The answer when the resolver fails. *)
Lemma SendLeave_at_resolver (w w1 : World) (err : error) :
  rsAPI_QueryRoomVersionForRoom (api.mkVerReq roomID) w = (inl err, w1) ->
  routing.SendLeave request cfg roomID eventID w
  = (Returned (util.mk http.StatusBadRequest (jsonerror.UnsupportedRoomVersion (Error err))),
     w1, [CallQueryRoomVersionForRoom (api.mkVerReq roomID)]).
Proof.
  intros Hq. unfold_handler. rewrite Hq. reflexivity.
Qed.

(** The answer when the body does not parse under the resolved version. *)
Lemma SendLeave_at_parse
      (w w1 : World) (verRes : api.QueryRoomVersionForRoomResponse) (err : error) :
  rsAPI_QueryRoomVersionForRoom (api.mkVerReq roomID) w = (inr verRes, w1) ->
  NewEventFromUntrustedJSON (FederationRequest.Content request) (api.RoomVersion_ verRes)
  = inl err ->
  routing.SendLeave request cfg roomID eventID w
  = (Returned
       (util.mk http.StatusBadRequest
          (jsonerror.NotJSON
             ("The request body could not be decoded into valid JSON. " ++ Error err))),
     w1, [CallQueryRoomVersionForRoom (api.mkVerReq roomID)]).
Proof.
  intros Hq Hparse. unfold_handler. rewrite Hq. simpl. rewrite Hparse. reflexivity.
Qed.

(** The cross-checks either all pass or one of them fails. *)
Lemma cross_checks_dec (event : Event) :
  { Event_RoomID event = roomID /\ Event_EventID event = eventID
    /\ Event_Origin event = FederationRequest.Origin request }
  + { Event_RoomID event <> roomID \/ Event_EventID event <> eventID
      \/ Event_Origin event <> FederationRequest.Origin request }.
Proof.
  destruct (string_dec (Event_RoomID event) roomID); [| right; tauto].
  destruct (string_dec (Event_EventID event) eventID); [| right; tauto].
  destruct (string_dec (Event_Origin event) (FederationRequest.Origin request));
    [left | right]; tauto.
Qed.

(** A submission among the calls of [SendLeave] has every validation
    step behind it and only its own log entry after it. *)
Lemma SendLeave_submission_inv
      (w : World) (events : list (HeaderedEvent.t Event)) (sendAsServer : ServerName)
      (txnID : option string) :
  In (CallSendEvents events sendAsServer txnID)
     (calls (routing.SendLeave request cfg roomID eventID w)) ->
  exists verRes w1 event result0 rest w2 after,
    rsAPI_QueryRoomVersionForRoom (api.mkVerReq roomID) w = (inr verRes, w1)
    /\ NewEventFromUntrustedJSON (FederationRequest.Content request) (api.RoomVersion_ verRes)
       = inr event
    /\ Event_RoomID event = roomID
    /\ Event_EventID event = eventID
    /\ Event_Origin event = FederationRequest.Origin request
    /\ keys_VerifyJSONs (leave_verify_requests event) w1 = (inr (result0 :: rest), w2)
    /\ VerifyJSONResult.Error_ result0 = None
    /\ Event_Membership event = inr Leave
    /\ events = [ HeaderedEvent.mk (api.RoomVersion_ verRes) event ]
    /\ sendAsServer = config.ServerName_ (config.Matrix_ cfg)
    /\ txnID = None
    /\ calls (routing.SendLeave request cfg roomID eventID w)
       = ([ CallQueryRoomVersionForRoom (api.mkVerReq roomID);
            CallVerifyJSONs (leave_verify_requests event);
            CallSendEvents events sendAsServer txnID ] ++ after)%list
    /\ Forall (fun c => is_log c = true) after.
Proof.
  assert (Hnone : forall (c : Call Event) (l : list (Call Event)),
             Forall (fun c' => is_submission c' = false) l ->
             is_submission c = true -> ~ In c l).
  { intros c l Hall Hc Hin. rewrite Forall_forall in Hall.
    specialize (Hall c Hin). congruence. }
  intros Hin.
  destruct (rsAPI_QueryRoomVersionForRoom (api.mkVerReq roomID) w) as [[err | verRes] w1] eqn:Hq.
  { rewrite (SendLeave_at_resolver _ Hq) in Hin.
    exfalso. revert Hin. apply Hnone; repeat constructor. }
  destruct (NewEventFromUntrustedJSON (FederationRequest.Content request)
                                      (api.RoomVersion_ verRes)) as [err | event] eqn:Hparse.
  { rewrite (SendLeave_at_parse _ Hq Hparse) in Hin.
    exfalso. revert Hin. apply Hnone; repeat constructor. }
  destruct (cross_checks_dec event) as [(Hroom & Hevent & Horigin) | Hbad].
  2:{ rewrite (SendLeave_at_cross_checks _ Hq Hparse Hbad) in Hin.
      exfalso. revert Hin. apply Hnone; repeat constructor. }
  rewrite (SendLeave_after_cross_checks _ Hq Hparse Hroom Hevent Horigin) in *.
  destruct (keys_VerifyJSONs (leave_verify_requests event) w1)
    as [[err | [| result0 rest]] w2] eqn:Hkeys;
    try solve [exfalso; revert Hin; apply Hnone; repeat constructor].
  destruct (VerifyJSONResult.Error_ result0) eqn:Hsig;
    try solve [exfalso; revert Hin; apply Hnone; repeat constructor].
  destruct (Event_Membership event) as [err | mem] eqn:Hmem;
    try solve [exfalso; revert Hin; apply Hnone; repeat constructor].
  destruct (negb (mem =? Leave)%string) eqn:Hleave;
    try solve [exfalso; revert Hin; apply Hnone; repeat constructor].
  apply negb_eqb_false in Hleave. subst mem.
  cbv zeta in *.
  destruct (rsAPI_SendEvents [HeaderedEvent.mk (api.RoomVersion_ verRes) event]
                             (config.ServerName_ (config.Matrix_ cfg)) None w2)
    as [[err |] w3] eqn:Hsend; unfold calls in *; simpl in Hin |- *.
  - destruct Hin as [Hc | [Hc | [Hc | [Hc | []]]]]; try discriminate Hc.
    injection Hc as <- <- <-.
    exists verRes, w1, event, result0, rest, w2, [CallLogError err "producer.SendEvents failed"].
    repeat split; auto.
  - destruct Hin as [Hc | [Hc | [Hc | []]]]; try discriminate Hc.
    injection Hc as <- <- <-.
    exists verRes, w1, event, result0, rest, w2, [].
    repeat split; auto.
Qed.

End SendLeaveFacts.

Section SendLeaveTheorems.
Context {World Event AuthEvents : Type}.
Context {lib : Gomatrixserverlib Event AuthEvents}.
Context {svc : Services World Event}.

Variables (request : FederationRequest.t) (cfg : config.Dendrite).
Variables (roomID eventID : string).

(** C2: when the parsed event disagrees with the path on the room ID or
    on the event ID, or with the caller on the origin, SubmitLeave fails
    with the mismatch response of the first check that fails; the only
    call made is the version query, so the key ring is never asked and
    the answer is the same behind any key ring. *)
Theorem SendLeave_mismatch_precedes_signature_check
        (w w1 : World) (verRes : api.QueryRoomVersionForRoomResponse) (event : Event) :
  rsAPI_QueryRoomVersionForRoom (api.mkVerReq roomID) w = (inr verRes, w1) ->
  NewEventFromUntrustedJSON (FederationRequest.Content request) (api.RoomVersion_ verRes)
  = inr event ->
  Event_RoomID event <> roomID \/ Event_EventID event <> eventID
  \/ Event_Origin event <> FederationRequest.Origin request ->
  exists r,
    routing.SendLeave request cfg roomID eventID w
    = (Returned r, w1, [CallQueryRoomVersionForRoom (api.mkVerReq roomID)])
    /\ (Event_RoomID event <> roomID -> r = Failure.RoomIdMismatch)
    /\ (Event_RoomID event = roomID -> Event_EventID event <> eventID ->
        r = Failure.EventIdMismatch)
    /\ (Event_RoomID event = roomID -> Event_EventID event = eventID ->
        r = Failure.OriginMismatch)
    /\ (r = Failure.RoomIdMismatch \/ r = Failure.EventIdMismatch
        \/ r = Failure.OriginMismatch)
    /\ Forall (fun c => is_verification c = false)
              (calls (routing.SendLeave request cfg roomID eventID w))
    /\ forall verifier,
         routing.SendLeave (svc := with_keys svc verifier) request cfg roomID eventID w
         = routing.SendLeave request cfg roomID eventID w.
Proof.
  intros Hq Hparse Hbad.
  pose proof (SendLeave_at_cross_checks request cfg w Hq Hparse Hbad) as Hrun.
  eexists. split; [exact Hrun |].
  repeat split.
  - intros Hroom. now rewrite (negb_eqb_true Hroom).
  - intros Hroom Hevent. subst roomID.
    now rewrite negb_eqb_refl, (negb_eqb_true Hevent).
  - intros Hroom Hevent. subst roomID eventID. now rewrite !negb_eqb_refl.
  - destruct (negb (Event_RoomID event =? roomID)%string); [tauto |].
    destruct (negb (Event_EventID event =? eventID)%string); tauto.
  - rewrite Hrun. repeat constructor.
  - intros verifier. rewrite Hrun.
    apply (SendLeave_at_cross_checks (svc := with_keys svc verifier) request cfg w Hq Hparse Hbad).
Qed.

(** C3: when the cross-checks pass, SubmitLeave asks the key ring about
    one message: the redacted event, signed by the event's origin (which
    is the caller), at the event's own timestamp, with strict validity
    checking.  An error of the call itself gives the internal-failure
    response; a failed verification result gives the forbidden
    signature response; the two responses differ. *)
Theorem SendLeave_signature_check
        (w w1 : World) (verRes : api.QueryRoomVersionForRoomResponse) (event : Event) :
  rsAPI_QueryRoomVersionForRoom (api.mkVerReq roomID) w = (inr verRes, w1) ->
  NewEventFromUntrustedJSON (FederationRequest.Content request) (api.RoomVersion_ verRes)
  = inr event ->
  Event_RoomID event = roomID ->
  Event_EventID event = eventID ->
  Event_Origin event = FederationRequest.Origin request ->
  leave_verify_requests event
  = [ VerifyJSONRequest.mk (FederationRequest.Origin request)
                           (Event_JSON (Event_Redact event))
                           (Event_OriginServerTS event) true ]
  /\ (exists after,
        calls (routing.SendLeave request cfg roomID eventID w)
        = CallQueryRoomVersionForRoom (api.mkVerReq roomID)
            :: CallVerifyJSONs (leave_verify_requests event) :: after)
  /\ (forall err w2,
        keys_VerifyJSONs (leave_verify_requests event) w1 = (inl err, w2) ->
        routing.SendLeave request cfg roomID eventID w
        = (Returned Failure.InternalFailure, w2,
           [ CallQueryRoomVersionForRoom (api.mkVerReq roomID);
             CallVerifyJSONs (leave_verify_requests event);
             CallLogError err "keys.VerifyJSONs failed" ]))
  /\ (forall result0 rest err w2,
        keys_VerifyJSONs (leave_verify_requests event) w1 = (inr (result0 :: rest), w2) ->
        VerifyJSONResult.Error_ result0 = Some err ->
        routing.SendLeave request cfg roomID eventID w
        = (Returned Failure.SignatureInvalid, w2,
           [ CallQueryRoomVersionForRoom (api.mkVerReq roomID);
             CallVerifyJSONs (leave_verify_requests event) ]))
  /\ util.Code Failure.SignatureInvalid = http.StatusForbidden
  /\ util.Code Failure.InternalFailure = http.StatusInternalServerError
  /\ Failure.SignatureInvalid <> Failure.InternalFailure.
Proof.
  intros Hq Hparse Hroom Hevent Horigin.
  pose proof (SendLeave_after_cross_checks request cfg w Hq Hparse Hroom Hevent Horigin)
    as Hrun.
  split; [unfold leave_verify_requests; now rewrite Horigin |].
  split.
  { rewrite Hrun. unfold calls.
    repeat match goal with
           | |- context [match ?x with _ => _ end] => destruct x
           end; simpl; eexists; reflexivity. }
  split; [intros err w2 Hkeys; now rewrite Hrun, Hkeys |].
  split; [intros result0 rest err w2 Hkeys Hsig; now rewrite Hrun, Hkeys, Hsig |].
  repeat split. discriminate.
Qed.

(** C6, as the code has it: when the event is correctly addressed, its
    signature verifies and its membership can be read, a membership
    other than leave makes SubmitLeave fail with the membership-mismatch
    response, and nothing is submitted. *)
Theorem SendLeave_rejects_other_membership
        (w w1 w2 : World) (verRes : api.QueryRoomVersionForRoomResponse) (event : Event)
        (result0 : VerifyJSONResult.t) (rest : list VerifyJSONResult.t) (mem : string) :
  rsAPI_QueryRoomVersionForRoom (api.mkVerReq roomID) w = (inr verRes, w1) ->
  NewEventFromUntrustedJSON (FederationRequest.Content request) (api.RoomVersion_ verRes)
  = inr event ->
  Event_RoomID event = roomID ->
  Event_EventID event = eventID ->
  Event_Origin event = FederationRequest.Origin request ->
  keys_VerifyJSONs (leave_verify_requests event) w1 = (inr (result0 :: rest), w2) ->
  VerifyJSONResult.Error_ result0 = None ->
  Event_Membership event = inr mem ->
  mem <> Leave ->
  routing.SendLeave request cfg roomID eventID w
  = (Returned Failure.MembershipMismatch, w2,
     [ CallQueryRoomVersionForRoom (api.mkVerReq roomID);
       CallVerifyJSONs (leave_verify_requests event) ])
  /\ util.Code Failure.MembershipMismatch = http.StatusBadRequest
  /\ Forall (fun c => is_submission c = false)
            (calls (routing.SendLeave request cfg roomID eventID w)).
Proof.
  intros Hq Hparse Hroom Hevent Horigin Hkeys Hsig Hmem Hother.
  rewrite (SendLeave_after_cross_checks request cfg w Hq Hparse Hroom Hevent Horigin).
  rewrite Hkeys, Hsig, Hmem, (negb_eqb_true Hother).
  repeat split; repeat constructor.
Qed.

(** C7: a submission to the Event Ingestion Service appears among the
    calls of SubmitLeave only when the version was resolved, the body
    parsed, the three cross-checks passed, the signature verified and
    the membership is leave.  It is then the one event under the
    resolved version, sent as the local server, made after the version
    query and the signature check and followed by nothing but the log
    entry of its own failure. *)
Theorem SendLeave_submits_only_after_full_validation
        (w : World) (events : list (HeaderedEvent.t Event)) (sendAsServer : ServerName)
        (txnID : option string) :
  In (CallSendEvents events sendAsServer txnID)
     (calls (routing.SendLeave request cfg roomID eventID w)) ->
  exists verRes w1 event result0 rest w2 after,
    rsAPI_QueryRoomVersionForRoom (api.mkVerReq roomID) w = (inr verRes, w1)
    /\ NewEventFromUntrustedJSON (FederationRequest.Content request) (api.RoomVersion_ verRes)
       = inr event
    /\ Event_RoomID event = roomID
    /\ Event_EventID event = eventID
    /\ Event_Origin event = FederationRequest.Origin request
    /\ keys_VerifyJSONs (leave_verify_requests event) w1 = (inr (result0 :: rest), w2)
    /\ VerifyJSONResult.Error_ result0 = None
    /\ Event_Membership event = inr Leave
    /\ events = [ HeaderedEvent.mk (api.RoomVersion_ verRes) event ]
    /\ sendAsServer = config.ServerName_ (config.Matrix_ cfg)
    /\ calls (routing.SendLeave request cfg roomID eventID w)
       = ([ CallQueryRoomVersionForRoom (api.mkVerReq roomID);
            CallVerifyJSONs (leave_verify_requests event);
            CallSendEvents events sendAsServer txnID ] ++ after)%list
    /\ Forall (fun c => is_log c = true) after
    /\ length (filter is_submission (calls (routing.SendLeave request cfg roomID eventID w)))
       = 1%nat.
Proof.
  intros Hin.
  destruct (SendLeave_submission_inv request cfg roomID eventID w _ _ _ Hin)
    as (verRes & w1 & event & result0 & rest & w2 & after & Hq & Hparse & Hroom & Hevent
        & Horigin & Hkeys & Hsig & Hmem & Hevents & Hserver & Htxn & Hcalls & Hafter).
  exists verRes, w1, event, result0, rest, w2, after.
  repeat (split; [assumption |]).
  assert (Hnil : filter is_submission after = []).
  { clear Hcalls. induction Hafter as [| c l Hc _ IH]; [reflexivity |].
    simpl. destruct c; try discriminate Hc. exact IH. }
  rewrite Hcalls. simpl. now rewrite Hnil.
Qed.

(** C9: SubmitLeave asks for the room version exactly once, whatever
    happens afterwards.  The parser has a part in the run at the
    resolved version only: behind any parser that agrees with it on the
    body under the version the query returned, whatever it does under
    every other version, the run is the same, answer, world and calls.
    A body that does not parse under that version is a bad request, and
    a submitted event is the event of that parse, labelled with that
    same version. *)
Theorem SendLeave_uses_one_room_version (w : World) :
  length (filter is_version_query (calls (routing.SendLeave request cfg roomID eventID w)))
  = 1%nat
  /\ (forall parse,
        (forall verRes w1,
            rsAPI_QueryRoomVersionForRoom (api.mkVerReq roomID) w = (inr verRes, w1) ->
            parse (FederationRequest.Content request) (api.RoomVersion_ verRes)
            = NewEventFromUntrustedJSON (FederationRequest.Content request)
                                        (api.RoomVersion_ verRes)) ->
        routing.SendLeave (lib := with_parser lib parse) request cfg roomID eventID w
        = routing.SendLeave request cfg roomID eventID w)
  /\ (forall verRes w1 err,
        rsAPI_QueryRoomVersionForRoom (api.mkVerReq roomID) w = (inr verRes, w1) ->
        NewEventFromUntrustedJSON (FederationRequest.Content request)
                                  (api.RoomVersion_ verRes) = inl err ->
        exists r, response (routing.SendLeave request cfg roomID eventID w) = Returned r
                  /\ util.Code r = http.StatusBadRequest)
  /\ (forall events sendAsServer txnID,
        In (CallSendEvents events sendAsServer txnID)
           (calls (routing.SendLeave request cfg roomID eventID w)) ->
        exists verRes w1 event,
          rsAPI_QueryRoomVersionForRoom (api.mkVerReq roomID) w = (inr verRes, w1)
          /\ NewEventFromUntrustedJSON (FederationRequest.Content request)
                                       (api.RoomVersion_ verRes) = inr event
          /\ events = [ HeaderedEvent.mk (api.RoomVersion_ verRes) event ]).
Proof.
  split; [| split; [| split]].
  - destruct (rsAPI_QueryRoomVersionForRoom (api.mkVerReq roomID) w)
      as [[err | verRes] w1] eqn:Hq.
    { now rewrite (SendLeave_at_resolver request cfg roomID eventID w Hq). }
    destruct (NewEventFromUntrustedJSON (FederationRequest.Content request)
                                        (api.RoomVersion_ verRes)) as [err | event] eqn:Hparse.
    { now rewrite (SendLeave_at_parse request cfg roomID eventID w Hq Hparse). }
    destruct (cross_checks_dec request roomID eventID event)
      as [(Hroom & Hevent & Horigin) | Hbad].
    2:{ now rewrite (SendLeave_at_cross_checks request cfg w Hq Hparse Hbad). }
    rewrite (SendLeave_after_cross_checks request cfg w Hq Hparse Hroom Hevent Horigin).
    cbv zeta.
    repeat match goal with
           | |- context [match ?x with _ => _ end] => destruct x
           end; reflexivity.
  - intros parse Hagree.
    destruct (rsAPI_QueryRoomVersionForRoom (api.mkVerReq roomID) w)
      as [[err | verRes] w1] eqn:Hq.
    { etransitivity;
        [ exact (SendLeave_at_resolver (lib := with_parser lib parse)
                                       request cfg roomID eventID w Hq)
        | symmetry; exact (SendLeave_at_resolver request cfg roomID eventID w Hq) ]. }
    specialize (Hagree verRes w1 eq_refl).
    destruct (NewEventFromUntrustedJSON (FederationRequest.Content request)
                                        (api.RoomVersion_ verRes)) as [err | event] eqn:Hparse.
    { etransitivity;
        [ exact (SendLeave_at_parse (lib := with_parser lib parse)
                                    request cfg roomID eventID w Hq Hagree)
        | symmetry; exact (SendLeave_at_parse request cfg roomID eventID w Hq Hparse) ]. }
    destruct (cross_checks_dec request roomID eventID event)
      as [(Hroom & Hevent & Horigin) | Hbad].
    2:{ etransitivity;
          [ exact (SendLeave_at_cross_checks (lib := with_parser lib parse)
                                             request cfg w Hq Hagree Hbad)
          | symmetry; exact (SendLeave_at_cross_checks request cfg w Hq Hparse Hbad) ]. }
    etransitivity;
      [ exact (SendLeave_after_cross_checks (lib := with_parser lib parse)
                                            request cfg w Hq Hagree Hroom Hevent Horigin)
      | symmetry;
        exact (SendLeave_after_cross_checks request cfg w Hq Hparse Hroom Hevent Horigin) ].
  - intros verRes w1 err Hq Hparse.
    rewrite (SendLeave_at_parse request cfg roomID eventID w Hq Hparse).
    eexists. split; reflexivity.
  - intros events sendAsServer txnID Hin.
    destruct (SendLeave_submission_inv request cfg roomID eventID w _ _ _ Hin)
      as (verRes & w1 & event & _ & _ & _ & _ & Hq & Hparse & _ & _ & _ & _ & _ & _
          & Hevents & _).
    exists verRes, w1, event. auto.
Qed.

End SendLeaveTheorems.

(** ** The theorems on the reference implementation *)

(** The handshake of the scenario, end to end. *)
Example MakeLeave_scenario :
  Fake.MakeLeave (Fake.from_b "") "!r:a.org" "@u:b.org" Fake.world
  = (Returned
       (util.mk 200
          (JDraft "1"
             (EventBuilder.mk "@u:b.org" "!r:a.org" "m.room.member" (Some "@u:b.org")
                              "membership=leave;" (BuilderAux.mk ["$m0"] ["$m0"] 1)))),
     Fake.world,
     [ CallQueryRoomVersionForRoom (api.mkVerReq "!r:a.org");
       CallBuildEvent
         (EventBuilder.mk "@u:b.org" "!r:a.org" "m.room.member" (Some "@u:b.org")
                          "membership=leave;" BuilderAux.zero)
         Fake.cfg 100 ]).
Proof. reflexivity. Qed.

Example SendLeave_scenario :
  Fake.SendLeave (Fake.from_b "payload-e1") "!r:a.org" "$e1" Fake.world
  = (Returned (util.mk 200 JEmpty),
     Fake.set_persisted Fake.world [HeaderedEvent.mk "1" Fake.e1],
     [ CallQueryRoomVersionForRoom (api.mkVerReq "!r:a.org");
       CallVerifyJSONs [VerifyJSONRequest.mk "b.org" "leave-json" 20 true];
       CallSendEvents [HeaderedEvent.mk "1" Fake.e1] "a.org" None ]).
Proof. reflexivity. Qed.

Example SendLeave_scenario_wrong_caller :
  Fake.SendLeave (Fake.from_c "payload-e1") "!r:a.org" "$e1" Fake.world
  = (Returned
       (util.mk 403 (jsonerror.Forbidden "The leave must be sent by the server it originated on")),
     Fake.world,
     [ CallQueryRoomVersionForRoom (api.mkVerReq "!r:a.org") ]).
Proof. reflexivity. Qed.

(** A room with a version but no state: the not-found answer comes from
    event construction. *)
Example MakeLeave_room_without_state :
  Fake.MakeLeave (Fake.from_b "") "!r:a.org" "@u:b.org" Fake.world_no_state
  = (Returned Failure.RoomUnknown, Fake.world_no_state,
     [ CallQueryRoomVersionForRoom (api.mkVerReq "!r:a.org");
       CallBuildEvent (leave_builder "!r:a.org" "@u:b.org" "membership=leave;" BuilderAux.zero)
                      Fake.cfg 100 ]).
Proof. reflexivity. Qed.

(** C1 on a concrete request: the resolver does not know the room, and
    DraftLeave answers with the internal-failure response of status 500,
    the very answer it gives when the resolver cannot be reached; it is
    not a not-found answer. *)
Lemma MakeLeave_unknown_room_at_resolver_is_internal_failure :
  Fake.query_version (api.mkVerReq "!r:a.org") Fake.world_unknown_room
  = (inl (errors_New "room not found"), Fake.world_unknown_room)
  /\ Fake.query_version (api.mkVerReq "!r:a.org") Fake.world_resolver_down
     = (inl (errors_New "connection refused"), Fake.world_resolver_down)
  /\ response (Fake.MakeLeave (Fake.from_b "") "!r:a.org" "@u:b.org" Fake.world_unknown_room)
     = Returned (util.mk 500 (JResponse 500 (JError (MatrixError.Unknown "Internal Server Error"))))
  /\ response (Fake.MakeLeave (Fake.from_b "") "!r:a.org" "@u:b.org" Fake.world_unknown_room)
     = response (Fake.MakeLeave (Fake.from_b "") "!r:a.org" "@u:b.org"
                                Fake.world_resolver_down)
  /\ response (Fake.MakeLeave (Fake.from_b "") "!r:a.org" "@u:b.org" Fake.world_unknown_room)
     <> Returned Failure.RoomUnknown.
Proof.
  repeat split; try reflexivity. discriminate.
Qed.

Lemma MakeLeave_resolver_error_is_internal_failure_witness :
  Fake.query_version (api.mkVerReq "!r:a.org") Fake.world_unknown_room
  = (inl (errors_New "room not found"), Fake.world_unknown_room)
  /\ (Fake.MakeLeave (Fake.from_b "") "!r:a.org" "@u:b.org" Fake.world_unknown_room
      = (Returned Failure.ResolverFailure, Fake.world_unknown_room,
         [CallQueryRoomVersionForRoom (api.mkVerReq "!r:a.org")])
      /\ util.Code Failure.ResolverFailure = http.StatusInternalServerError
      /\ Failure.ResolverFailure <> Failure.RoomUnknown).
Proof.
  split; [reflexivity |].
  apply (MakeLeave_resolver_error_is_internal_failure
           (lib := Fake.lib Fake.wire) (svc := Fake.svc)
           (Fake.from_b "") Fake.cfg "!r:a.org" "@u:b.org" Fake.world_unknown_room
           (w1 := Fake.world_unknown_room) (err := errors_New "room not found")).
  reflexivity.
Defined.

(** C5 on a concrete request: the user belongs to b.org and the caller
    is c.org, but the room's version does not resolve; DraftLeave answers
    with the internal failure of status 500 and not with the forbidden
    origin-mismatch response. *)
Lemma MakeLeave_foreign_user_in_unresolved_room_is_not_forbidden :
  Fake.split_id "@" "@u:b.org" = inr ("u", "b.org")
  /\ "b.org" <> FederationRequest.Origin (Fake.from_c "")
  /\ response (Fake.MakeLeave (Fake.from_c "") "!r:a.org" "@u:b.org" Fake.world_unknown_room)
     = Returned Failure.ResolverFailure
  /\ util.Code Failure.ResolverFailure = 500
  /\ response (Fake.MakeLeave (Fake.from_c "") "!r:a.org" "@u:b.org" Fake.world_unknown_room)
     <> Returned Failure.DraftOriginMismatch.
Proof.
  repeat split; try reflexivity; discriminate.
Qed.

Lemma MakeLeave_foreign_user_is_forbidden_witness :
  Fake.query_version (api.mkVerReq "!r:a.org") Fake.world
  = (inr (api.mkVerRes "1"), Fake.world)
  /\ Fake.split_id "@" "@u:b.org" = inr ("u", "b.org")
  /\ "b.org" <> FederationRequest.Origin (Fake.from_c "")
  /\ (Fake.MakeLeave (Fake.from_c "") "!r:a.org" "@u:b.org" Fake.world
      = (Returned Failure.DraftOriginMismatch, Fake.world,
         [CallQueryRoomVersionForRoom (api.mkVerReq "!r:a.org")])
      /\ util.Code Failure.DraftOriginMismatch = http.StatusForbidden).
Proof.
  split; [reflexivity |]. split; [reflexivity |]. split; [discriminate |].
  apply (MakeLeave_foreign_user_is_forbidden
           (lib := Fake.lib Fake.wire) (svc := Fake.svc)
           (Fake.from_c "") Fake.cfg "!r:a.org" "@u:b.org" Fake.world
           (w1 := Fake.world) (verRes := api.mkVerRes "1")
           (localpart := "u") (domain := "b.org")).
  - reflexivity.
  - reflexivity.
  - discriminate.
Defined.

(** C10 on a concrete request: the user identifier has no sigil, but
    the room's version does not resolve; DraftLeave answers with the
    internal failure of status 500 and not with "Invalid UserID". *)
Lemma MakeLeave_malformed_user_in_unresolved_room_is_not_bad_request :
  (exists err, Fake.split_id "@" "u-b.org" = inl err)
  /\ response (Fake.MakeLeave (Fake.from_b "") "!r:a.org" "u-b.org" Fake.world_unknown_room)
     = Returned Failure.ResolverFailure
  /\ util.Code Failure.ResolverFailure = 500
  /\ response (Fake.MakeLeave (Fake.from_b "") "!r:a.org" "u-b.org" Fake.world_unknown_room)
     <> Returned Failure.InvalidUserID.
Proof.
  repeat split; try reflexivity; try discriminate.
  eexists. reflexivity.
Qed.

Lemma MakeLeave_malformed_user_is_bad_request_witness :
  Fake.query_version (api.mkVerReq "!r:a.org") Fake.world
  = (inr (api.mkVerRes "1"), Fake.world)
  /\ Fake.split_id "@" "u-b.org"
     = inl (errors_New "invalid ID: does not start with the sigil")
  /\ (Fake.MakeLeave (Fake.from_b "") "!r:a.org" "u-b.org" Fake.world
      = (Returned Failure.InvalidUserID, Fake.world,
         [CallQueryRoomVersionForRoom (api.mkVerReq "!r:a.org")])
      /\ util.Code Failure.InvalidUserID = http.StatusBadRequest
      /\ Failure.InvalidUserID <> Failure.DraftOriginMismatch
      /\ forall request' : FederationRequest.t,
           routing.MakeLeave (lib := Fake.lib Fake.wire) (svc := Fake.svc)
                             request' Fake.cfg "!r:a.org" "u-b.org" Fake.world
           = Fake.MakeLeave (Fake.from_b "") "!r:a.org" "u-b.org" Fake.world).
Proof.
  split; [reflexivity |]. split; [reflexivity |].
  apply (MakeLeave_malformed_user_is_bad_request
           (lib := Fake.lib Fake.wire) (svc := Fake.svc)
           (Fake.from_b "") Fake.cfg "!r:a.org" "u-b.org" Fake.world
           (w1 := Fake.world) (verRes := api.mkVerRes "1")
           (err := errors_New "invalid ID: does not start with the sigil")).
  - reflexivity.
  - reflexivity.
Defined.

Lemma MakeLeave_success_is_an_authorized_leave_draft_witness :
  response (Fake.MakeLeave (Fake.from_b "") "!r:a.org" "@u:b.org" Fake.world)
  = Returned Fake.draft
  /\ util.Code Fake.draft = http.StatusOK
  /\ exists verRes w1 localpart content event aux queryRes w2 template,
       Fake.query_version (api.mkVerReq "!r:a.org") Fake.world = (inr verRes, w1)
       /\ Fake.split_id "@" "@u:b.org"
          = inr (localpart, FederationRequest.Origin (Fake.from_b ""))
       /\ inr (Fake.render [("membership", Leave)]) = inr (A := error) content
       /\ Fake.build_event (leave_builder "!r:a.org" "@u:b.org" content BuilderAux.zero)
                           Fake.cfg (Fake.clock w1) w1 = (inr (event, aux, queryRes), w2)
       /\ Fake.allowed event (map (@HeaderedEvent.Event_ Fake.Event) (api.StateEvents queryRes))
          = None
       /\ Fake.draft = util.mk http.StatusOK (JDraft (api.RoomVersion_ verRes) template)
       /\ template = leave_builder "!r:a.org" "@u:b.org" content aux
       /\ EventBuilder.Sender template = "@u:b.org"
       /\ EventBuilder.StateKey template = Some "@u:b.org"
       /\ EventBuilder.Content template = content
       /\ EventBuilder.RoomID template = "!r:a.org".
Proof.
  split; [reflexivity |]. split; [reflexivity |].
  apply (MakeLeave_success_is_an_authorized_leave_draft
           (lib := Fake.lib Fake.wire) (svc := Fake.svc)
           (Fake.from_b "") Fake.cfg "!r:a.org" "@u:b.org" Fake.world (r := Fake.draft)).
  - reflexivity.
  - reflexivity.
Defined.

Lemma SendLeave_mismatch_precedes_signature_check_witness :
  Fake.query_version (api.mkVerReq "!r:a.org") Fake.world
  = (inr (api.mkVerRes "1"), Fake.world)
  /\ NewEventFromUntrustedJSON (Gomatrixserverlib := Fake.lib Fake.wire)
                               (FederationRequest.Content (Fake.from_c "payload-e1")) "1"
     = inr Fake.e1
  /\ (Fake.fRoomID Fake.e1 <> "!r:a.org" \/ Fake.fEventID Fake.e1 <> "$e1"
      \/ Fake.fOrigin Fake.e1 <> FederationRequest.Origin (Fake.from_c "payload-e1"))
  /\ exists r,
       Fake.SendLeave (Fake.from_c "payload-e1") "!r:a.org" "$e1" Fake.world
       = (Returned r, Fake.world, [CallQueryRoomVersionForRoom (api.mkVerReq "!r:a.org")])
       /\ (Fake.fRoomID Fake.e1 <> "!r:a.org" -> r = Failure.RoomIdMismatch)
       /\ (Fake.fRoomID Fake.e1 = "!r:a.org" -> Fake.fEventID Fake.e1 <> "$e1" ->
           r = Failure.EventIdMismatch)
       /\ (Fake.fRoomID Fake.e1 = "!r:a.org" -> Fake.fEventID Fake.e1 = "$e1" ->
           r = Failure.OriginMismatch)
       /\ (r = Failure.RoomIdMismatch \/ r = Failure.EventIdMismatch
           \/ r = Failure.OriginMismatch)
       /\ Forall (fun c => is_verification c = false)
                 (calls (Fake.SendLeave (Fake.from_c "payload-e1") "!r:a.org" "$e1" Fake.world))
       /\ forall verifier,
            routing.SendLeave (lib := Fake.lib Fake.wire) (svc := with_keys Fake.svc verifier)
                              (Fake.from_c "payload-e1") Fake.cfg "!r:a.org" "$e1" Fake.world
            = Fake.SendLeave (Fake.from_c "payload-e1") "!r:a.org" "$e1" Fake.world.
Proof.
  split; [reflexivity |]. split; [reflexivity |].
  split; [right; right; discriminate |].
  apply (SendLeave_mismatch_precedes_signature_check
           (lib := Fake.lib Fake.wire) (svc := Fake.svc)
           (Fake.from_c "payload-e1") Fake.cfg (roomID := "!r:a.org") (eventID := "$e1")
           Fake.world (w1 := Fake.world) (verRes := api.mkVerRes "1") (event := Fake.e1)).
  - reflexivity.
  - reflexivity.
  - right; right; discriminate.
Defined.

Lemma SendLeave_signature_check_witness :
  Fake.query_version (api.mkVerReq "!r:a.org") Fake.world_unsigned
  = (inr (api.mkVerRes "1"), Fake.world_unsigned)
  /\ NewEventFromUntrustedJSON (Gomatrixserverlib := Fake.lib Fake.wire)
                               (FederationRequest.Content (Fake.from_b "payload-e1")) "1"
     = inr Fake.e1
  /\ Fake.fRoomID Fake.e1 = "!r:a.org"
  /\ Fake.fEventID Fake.e1 = "$e1"
  /\ Fake.fOrigin Fake.e1 = FederationRequest.Origin (Fake.from_b "payload-e1")
  /\ Fake.verify [VerifyJSONRequest.mk "b.org" "leave-json" 20 true] Fake.world_unsigned
     = (inr [VerifyJSONResult.mk (Some (errors_New "bad signature"))], Fake.world_unsigned)
  /\ Fake.SendLeave (Fake.from_b "payload-e1") "!r:a.org" "$e1" Fake.world_unsigned
     = (Returned Failure.SignatureInvalid, Fake.world_unsigned,
        [ CallQueryRoomVersionForRoom (api.mkVerReq "!r:a.org");
          CallVerifyJSONs [VerifyJSONRequest.mk "b.org" "leave-json" 20 true] ]).
Proof.
  repeat (split; [reflexivity |]).
  destruct (SendLeave_signature_check
              (lib := Fake.lib Fake.wire) (svc := Fake.svc)
              (Fake.from_b "payload-e1") Fake.cfg (roomID := "!r:a.org") (eventID := "$e1")
              Fake.world_unsigned (w1 := Fake.world_unsigned) (verRes := api.mkVerRes "1")
              (event := Fake.e1) eq_refl eq_refl eq_refl eq_refl eq_refl)
    as (_ & _ & _ & Hsig & _).
  apply (Hsig (VerifyJSONResult.mk (Some (errors_New "bad signature"))) []
              (errors_New "bad signature") Fake.world_unsigned); reflexivity.
Defined.

(** C3 on concrete requests: an unreachable key server gives the
    internal failure, an unknown signature the forbidden answer. *)
Example SendLeave_key_server_down :
  Fake.SendLeave (Fake.from_b "payload-e1") "!r:a.org" "$e1" Fake.world_keys_down
  = (Returned (util.mk 500 (JError (MatrixError.Unknown "Internal Server Error"))),
     Fake.world_keys_down,
     [ CallQueryRoomVersionForRoom (api.mkVerReq "!r:a.org");
       CallVerifyJSONs [VerifyJSONRequest.mk "b.org" "leave-json" 20 true];
       CallLogError (errors_New "key server unreachable") "keys.VerifyJSONs failed" ]).
Proof. reflexivity. Qed.

Lemma SendLeave_rejects_other_membership_witness :
  Fake.query_version (api.mkVerReq "!r:a.org") Fake.world
  = (inr (api.mkVerRes "1"), Fake.world)
  /\ NewEventFromUntrustedJSON (Gomatrixserverlib := Fake.lib Fake.wire)
                               (FederationRequest.Content (Fake.from_b "payload-e2")) "1"
     = inr Fake.e2
  /\ Fake.fRoomID Fake.e2 = "!r:a.org"
  /\ Fake.fEventID Fake.e2 = "$e2"
  /\ Fake.fOrigin Fake.e2 = FederationRequest.Origin (Fake.from_b "payload-e2")
  /\ Fake.verify [VerifyJSONRequest.mk "b.org" "rejoin-json" 20 true] Fake.world
     = (inr [VerifyJSONResult.mk None], Fake.world)
  /\ Event_Membership (Gomatrixserverlib := Fake.lib Fake.wire) Fake.e2 = inr "join"
  /\ "join" <> Leave
  /\ (Fake.SendLeave (Fake.from_b "payload-e2") "!r:a.org" "$e2" Fake.world
      = (Returned Failure.MembershipMismatch, Fake.world,
         [ CallQueryRoomVersionForRoom (api.mkVerReq "!r:a.org");
           CallVerifyJSONs [VerifyJSONRequest.mk "b.org" "rejoin-json" 20 true] ])
      /\ util.Code Failure.MembershipMismatch = http.StatusBadRequest
      /\ Forall (fun c => is_submission c = false)
                (calls (Fake.SendLeave (Fake.from_b "payload-e2") "!r:a.org" "$e2"
                                       Fake.world))).
Proof.
  repeat (split; [reflexivity |]). split; [discriminate |].
  apply (SendLeave_rejects_other_membership
           (lib := Fake.lib Fake.wire) (svc := Fake.svc)
           (Fake.from_b "payload-e2") Fake.cfg (roomID := "!r:a.org") (eventID := "$e2")
           Fake.world (w1 := Fake.world) (w2 := Fake.world) (verRes := api.mkVerRes "1")
           (event := Fake.e2) (result0 := VerifyJSONResult.mk None) (rest := [])
           (mem := "join")); try reflexivity.
  discriminate.
Defined.

Lemma SendLeave_submits_only_after_full_validation_witness :
  In (CallSendEvents [HeaderedEvent.mk "1" Fake.e1] "a.org" None)
     (calls (Fake.SendLeave (Fake.from_b "payload-e1") "!r:a.org" "$e1" Fake.world))
  /\ exists verRes w1 event result0 rest w2 after,
       Fake.query_version (api.mkVerReq "!r:a.org") Fake.world = (inr verRes, w1)
       /\ NewEventFromUntrustedJSON (Gomatrixserverlib := Fake.lib Fake.wire)
                                    (FederationRequest.Content (Fake.from_b "payload-e1"))
                                    (api.RoomVersion_ verRes) = inr event
       /\ Fake.fRoomID event = "!r:a.org"
       /\ Fake.fEventID event = "$e1"
       /\ Fake.fOrigin event = FederationRequest.Origin (Fake.from_b "payload-e1")
       /\ Fake.verify (leave_verify_requests (lib := Fake.lib Fake.wire) event) w1
          = (inr (result0 :: rest), w2)
       /\ VerifyJSONResult.Error_ result0 = None
       /\ Event_Membership (Gomatrixserverlib := Fake.lib Fake.wire) event = inr Leave
       /\ [HeaderedEvent.mk "1" Fake.e1] = [ HeaderedEvent.mk (api.RoomVersion_ verRes) event ]
       /\ "a.org" = config.ServerName_ (config.Matrix_ Fake.cfg)
       /\ calls (Fake.SendLeave (Fake.from_b "payload-e1") "!r:a.org" "$e1" Fake.world)
          = ([ CallQueryRoomVersionForRoom (api.mkVerReq "!r:a.org");
               CallVerifyJSONs (leave_verify_requests (lib := Fake.lib Fake.wire) event);
               CallSendEvents [HeaderedEvent.mk "1" Fake.e1] "a.org" None ] ++ after)%list
       /\ Forall (fun c => is_log c = true) after
       /\ length (filter is_submission
                         (calls (Fake.SendLeave (Fake.from_b "payload-e1") "!r:a.org" "$e1"
                                                Fake.world)))
          = 1%nat.
Proof.
  split; [right; right; left; reflexivity |].
  apply (SendLeave_submits_only_after_full_validation
           (lib := Fake.lib Fake.wire) (svc := Fake.svc)
           (Fake.from_b "payload-e1") Fake.cfg "!r:a.org" "$e1" Fake.world).
  right; right; left; reflexivity.
Defined.

Lemma SendLeave_uses_one_room_version_witness :
  In (CallSendEvents [HeaderedEvent.mk "1" Fake.e1] "a.org" None)
     (calls (Fake.SendLeave (Fake.from_b "payload-e1") "!r:a.org" "$e1" Fake.world))
  /\ length (filter is_version_query
                    (calls (Fake.SendLeave (Fake.from_b "payload-e1") "!r:a.org" "$e1"
                                           Fake.world)))
     = 1%nat
  /\ Faults.parse_v1_only "payload-e1" "2"
     <> NewEventFromUntrustedJSON (Gomatrixserverlib := Fake.lib Fake.wire) "payload-e1" "2"
  /\ routing.SendLeave (lib := with_parser (Fake.lib Fake.wire) Faults.parse_v1_only)
                       (svc := Fake.svc)
                       (Fake.from_b "payload-e1") Fake.cfg "!r:a.org" "$e1" Fake.world
     = Fake.SendLeave (Fake.from_b "payload-e1") "!r:a.org" "$e1" Fake.world
  /\ exists verRes w1 event,
       Fake.query_version (api.mkVerReq "!r:a.org") Fake.world = (inr verRes, w1)
       /\ NewEventFromUntrustedJSON (Gomatrixserverlib := Fake.lib Fake.wire)
                                    (FederationRequest.Content (Fake.from_b "payload-e1"))
                                    (api.RoomVersion_ verRes) = inr event
       /\ [HeaderedEvent.mk "1" Fake.e1] = [ HeaderedEvent.mk (api.RoomVersion_ verRes) event ].
Proof.
  pose proof (SendLeave_uses_one_room_version
                (lib := Fake.lib Fake.wire) (svc := Fake.svc)
                (Fake.from_b "payload-e1") Fake.cfg "!r:a.org" "$e1" Fake.world)
    as (Honce & Hparser & _ & Hsame).
  split; [right; right; left; reflexivity |].
  split; [exact Honce |].
  split; [discriminate |].
  split.
  - apply (Hparser Faults.parse_v1_only).
    intros verRes w1 Hq. injection Hq as <- _. reflexivity.
  - apply (Hsame _ "a.org" None). right; right; left; reflexivity.
Defined.

(** ** The remaining branches of DraftLeave *)

Section MakeLeavePaths.
Context {World Event AuthEvents : Type}.
Context {lib : Gomatrixserverlib Event AuthEvents}.
Context {svc : Services World Event}.

Variables (request : FederationRequest.t) (cfg : config.Dendrite).
Variables (roomID userID : string).

(** The run when the resolver fails. *)
Lemma MakeLeave_at_resolver (w w1 : World) (err : error) :
  rsAPI_QueryRoomVersionForRoom (api.mkVerReq roomID) w = (inl err, w1) ->
  routing.MakeLeave request cfg roomID userID w
  = (Returned Failure.ResolverFailure, w1,
     [CallQueryRoomVersionForRoom (api.mkVerReq roomID)]).
Proof.
  intros Hq. unfold_handler. now rewrite Hq.
Qed.

(** The run when the user identifier does not split. *)
Lemma MakeLeave_at_split
      (w w1 : World) (verRes : api.QueryRoomVersionForRoomResponse) (err : error) :
  rsAPI_QueryRoomVersionForRoom (api.mkVerReq roomID) w = (inr verRes, w1) ->
  SplitID "@" userID = inl err ->
  routing.MakeLeave request cfg roomID userID w
  = (Returned Failure.InvalidUserID, w1,
     [CallQueryRoomVersionForRoom (api.mkVerReq roomID)]).
Proof.
  intros Hq Hsplit. unfold_handler. rewrite Hq. simpl. now rewrite Hsplit.
Qed.

(** The run when the user belongs to another server. *)
Lemma MakeLeave_at_domain
      (w w1 : World) (verRes : api.QueryRoomVersionForRoomResponse)
      (localpart : string) (domain : ServerName) :
  rsAPI_QueryRoomVersionForRoom (api.mkVerReq roomID) w = (inr verRes, w1) ->
  SplitID "@" userID = inr (localpart, domain) ->
  domain <> FederationRequest.Origin request ->
  routing.MakeLeave request cfg roomID userID w
  = (Returned Failure.DraftOriginMismatch, w1,
     [CallQueryRoomVersionForRoom (api.mkVerReq roomID)]).
Proof.
  intros Hq Hsplit Hdomain. unfold_handler. rewrite Hq. simpl.
  now rewrite Hsplit, (negb_eqb_true Hdomain).
Qed.

(** The run once the version is resolved and the user belongs to the
    caller: the content is set, the event built and authorized. *)
Lemma MakeLeave_after_user_check
      (w w1 : World) (verRes : api.QueryRoomVersionForRoomResponse) (localpart : string) :
  rsAPI_QueryRoomVersionForRoom (api.mkVerReq roomID) w = (inr verRes, w1) ->
  SplitID "@" userID = inr (localpart, FederationRequest.Origin request) ->
  routing.MakeLeave request cfg roomID userID w
  = match json_Marshal [("membership", Leave)] with
    | inl err =>
        (Returned Failure.InternalFailure, w1,
         [ CallQueryRoomVersionForRoom (api.mkVerReq roomID);
           CallLogError err "builder.SetContent failed" ])
    | inr content =>
        let builder := leave_builder roomID userID content BuilderAux.zero in
        match rsAPI_BuildEvent builder cfg (time_Now w1) w1 with
        | (inl err, w2) =>
            if is_ErrRoomNoExists err then
              (Returned Failure.RoomUnknown, w2,
               [ CallQueryRoomVersionForRoom (api.mkVerReq roomID);
                 CallBuildEvent builder cfg (time_Now w1) ])
            else
              match as_BadJSONError err with
              | Some e =>
                  (Returned (util.mk http.StatusBadRequest (jsonerror.BadJSON (Error e))), w2,
                   [ CallQueryRoomVersionForRoom (api.mkVerReq roomID);
                     CallBuildEvent builder cfg (time_Now w1) ])
              | None =>
                  (Returned Failure.InternalFailure, w2,
                   [ CallQueryRoomVersionForRoom (api.mkVerReq roomID);
                     CallBuildEvent builder cfg (time_Now w1);
                     CallLogError err "eventutil.BuildEvent failed" ])
              end
        | (inr (event, aux, queryRes), w2) =>
            match Allowed event
                          (NewAuthEvents (map (@HeaderedEvent.Event_ Event)
                                              (api.StateEvents queryRes))) with
            | Some err =>
                (Returned (util.mk http.StatusForbidden (jsonerror.Forbidden (Error err))), w2,
                 [ CallQueryRoomVersionForRoom (api.mkVerReq roomID);
                   CallBuildEvent builder cfg (time_Now w1) ])
            | None =>
                (Returned
                   (util.mk http.StatusOK
                            (JDraft (api.RoomVersion_ verRes)
                                    (leave_builder roomID userID content aux))), w2,
                 [ CallQueryRoomVersionForRoom (api.mkVerReq roomID);
                   CallBuildEvent builder cfg (time_Now w1) ])
            end
        end
    end.
Proof.
  intros Hq Hsplit. unfold_handler. unfold leave_builder. rewrite Hq. simpl.
  rewrite Hsplit, negb_eqb_refl.
  destruct (json_Marshal [("membership", Leave)]) as [err | content]; simpl; [reflexivity |].
  destruct (rsAPI_BuildEvent _ cfg (time_Now w1) w1) as [[err | [[event aux] queryRes]] w2];
    simpl.
  - destruct (is_ErrRoomNoExists err); simpl; [reflexivity |].
    destruct (as_BadJSONError err); reflexivity.
  - destruct (Allowed event _); reflexivity.
Qed.

End MakeLeavePaths.

(** Every path of [MakeLeave], with the run rewritten to its value. *)
Ltac MakeLeave_cases request cfg roomID userID w :=
  destruct (rsAPI_QueryRoomVersionForRoom (api.mkVerReq roomID) w)
    as [[err | verRes] w1] eqn:Hq;
  [ rewrite (MakeLeave_at_resolver request cfg roomID userID w Hq) in *
  | destruct (SplitID "@" userID) as [err | [localpart domain]] eqn:Hsplit;
    [ rewrite (MakeLeave_at_split request cfg roomID userID w Hq Hsplit) in *
    | destruct (string_dec domain (FederationRequest.Origin request)) as [Hdomain | Hdomain];
      [ subst domain;
        rewrite (MakeLeave_after_user_check request cfg roomID userID w Hq Hsplit) in *;
        cbv zeta in *;
        destruct (json_Marshal [("membership", Leave)]) as [err | content] eqn:Hjson;
        [ | destruct (rsAPI_BuildEvent (leave_builder roomID userID content BuilderAux.zero)
                                       cfg (time_Now w1) w1)
              as [[err | [[event aux] queryRes]] w2] eqn:Hbuild;
            [ destruct (is_ErrRoomNoExists err) eqn:Hsentinel;
              [ | destruct (as_BadJSONError err) as [e |] eqn:Hbad ]
            | destruct (Allowed event
                          (NewAuthEvents (map (@HeaderedEvent.Event_ _)
                                              (api.StateEvents queryRes))))
                as [denied |] eqn:Hauth ] ]
      | rewrite (MakeLeave_at_domain request cfg roomID userID w Hq Hsplit Hdomain) in * ] ] ].

(** The named failure responses, unfolded to their constructors. *)
Tactic Notation "unfold_failures" "in" hyp(H) :=
  unfold Failure.ResolverFailure, Failure.InternalFailure, Failure.InvalidUserID,
    Failure.DraftOriginMismatch, Failure.RoomUnknown, Failure.RoomIdMismatch,
    Failure.EventIdMismatch, Failure.OriginMismatch, Failure.SignatureInvalid,
    Failure.MembershipMismatch, jsonerror.InternalServerError, nested,
    jsonerror.BadJSON, jsonerror.Forbidden, jsonerror.NotFound, jsonerror.NotJSON,
    jsonerror.UnsupportedRoomVersion, http.StatusOK, http.StatusBadRequest,
    http.StatusForbidden, http.StatusNotFound, http.StatusInternalServerError in H;
  simpl in H.

(** [H] says that a call is in a list of calls of other kinds. *)
Ltac not_among H :=
  exfalso; simpl in H;
  repeat (destruct H as [H | H]; [discriminate H |]);
  exact H.

Section MakeLeaveBranches.
Context {World Event AuthEvents : Type}.
Context {lib : Gomatrixserverlib Event AuthEvents}.
Context {svc : Services World Event}.

Variables (request : FederationRequest.t) (cfg : config.Dendrite).
Variables (roomID userID : string).

(** X1: the answers of DraftLeave carry one of five statuses, and the
    body is a draft exactly under status 200. *)
Theorem MakeLeave_status_codes (w : World) (r : util.JSONResponse) :
  response (routing.MakeLeave request cfg roomID userID w) = Returned r ->
  In (util.Code r) [200; 400; 403; 404; 500]
  /\ (util.Code r = 200 <-> exists version template, util.JSON r = JDraft version template).
Proof.
  intros Hrun.
  MakeLeave_cases request cfg roomID userID w;
    injection Hrun as <-; (split; [simpl; tauto |]);
    (split; [ intros Hcode; try discriminate Hcode; simpl; eauto
            | intros (version & template & Hbody); try discriminate Hbody; reflexivity ]).
Qed.

(** X2: DraftLeave writes a log entry exactly when it answers with the
    plain internal-failure response.  A resolver error, which is also
    answered under status 500, carries a different body and is not
    logged. *)
Theorem MakeLeave_logs_exactly_internal_failures (w : World) :
  (exists err msg, In (CallLogError err msg)
                      (calls (routing.MakeLeave request cfg roomID userID w)))
  <-> response (routing.MakeLeave request cfg roomID userID w)
      = Returned Failure.InternalFailure.
Proof.
  MakeLeave_cases request cfg roomID userID w; unfold calls, response; simpl;
    (split;
     [ intros (e0 & msg & Hin); try reflexivity; not_among Hin
     | intros Hanswer; try (unfold_failures in Hanswer; discriminate Hanswer);
       eexists; eexists; eauto 6 ]).
Qed.

(** X3: the calls of DraftLeave have one of four shapes: the version
    query alone, or followed by a log entry, or by the build of the
    draft, or by the build and a log entry. *)
Theorem MakeLeave_call_shape (w : World) :
  In (map kind (calls (routing.MakeLeave request cfg roomID userID w)))
     [ [VersionQuery]; [VersionQuery; LogEntry]; [VersionQuery; DraftBuild];
       [VersionQuery; DraftBuild; LogEntry] ].
Proof.
  MakeLeave_cases request cfg roomID userID w; unfold calls; simpl; tauto.
Qed.

(** X4: when the content cannot be encoded, DraftLeave logs the error
    and answers with the internal failure; no event is built. *)
Theorem MakeLeave_encoder_failure_is_internal_failure
        (w w1 : World) (verRes : api.QueryRoomVersionForRoomResponse) (localpart : string)
        (err : error) :
  rsAPI_QueryRoomVersionForRoom (api.mkVerReq roomID) w = (inr verRes, w1) ->
  SplitID "@" userID = inr (localpart, FederationRequest.Origin request) ->
  json_Marshal [("membership", Leave)] = inl err ->
  routing.MakeLeave request cfg roomID userID w
  = (Returned Failure.InternalFailure, w1,
     [ CallQueryRoomVersionForRoom (api.mkVerReq roomID);
       CallLogError err "builder.SetContent failed" ])
  /\ forall build,
       routing.MakeLeave (svc := with_build svc build) request cfg roomID userID w
       = routing.MakeLeave request cfg roomID userID w.
Proof.
  intros Hq Hsplit Hjson. split.
  - now rewrite (MakeLeave_after_user_check request cfg roomID userID w Hq Hsplit), Hjson.
  - intros build.
    rewrite (MakeLeave_after_user_check request cfg roomID userID w Hq Hsplit).
    rewrite (MakeLeave_after_user_check (svc := with_build svc build)
                                        request cfg roomID userID w Hq Hsplit).
    now rewrite Hjson.
Qed.

(** X5: when building the event fails, the answer depends on the kind
    of error alone: the room-does-not-exist sentinel gives the not-found
    response, a bad-JSON error gives a bad request that repeats its
    message, and any other error is logged and gives the internal
    failure, which says nothing about it. *)
Theorem MakeLeave_build_failure_by_kind
        (w w1 w2 : World) (verRes : api.QueryRoomVersionForRoomResponse) (localpart : string)
        (content : RawJSON) (err : error) :
  rsAPI_QueryRoomVersionForRoom (api.mkVerReq roomID) w = (inr verRes, w1) ->
  SplitID "@" userID = inr (localpart, FederationRequest.Origin request) ->
  json_Marshal [("membership", Leave)] = inr content ->
  rsAPI_BuildEvent (leave_builder roomID userID content BuilderAux.zero) cfg (time_Now w1) w1
  = (inl err, w2) ->
  routing.MakeLeave request cfg roomID userID w
  = (Returned
       match errDyn err with
       | IsErrRoomNoExists => Failure.RoomUnknown
       | IsBadJSONError => util.mk http.StatusBadRequest (jsonerror.BadJSON (Error err))
       | IsOtherError => Failure.InternalFailure
       end,
     w2,
     [ CallQueryRoomVersionForRoom (api.mkVerReq roomID);
       CallBuildEvent (leave_builder roomID userID content BuilderAux.zero) cfg (time_Now w1) ]
       ++ match errDyn err with
          | IsOtherError => [CallLogError err "eventutil.BuildEvent failed"]
          | _ => []
          end)%list.
Proof.
  intros Hq Hsplit Hjson Hbuild.
  rewrite (MakeLeave_after_user_check request cfg roomID userID w Hq Hsplit), Hjson.
  cbv zeta. rewrite Hbuild.
  unfold is_ErrRoomNoExists, as_BadJSONError. destruct (errDyn err); reflexivity.
Qed.

(** X6: when the authorization rules deny the leave, DraftLeave answers
    with a forbidden response that repeats the reason of the rules, and
    hands out no draft. *)
Theorem MakeLeave_not_authorized_carries_reason
        (w w1 w2 : World) (verRes : api.QueryRoomVersionForRoomResponse) (localpart : string)
        (content : RawJSON) (event : Event) (aux : BuilderAux.t)
        (queryRes : api.QueryLatestEventsAndStateResponse Event) (denied : error) :
  rsAPI_QueryRoomVersionForRoom (api.mkVerReq roomID) w = (inr verRes, w1) ->
  SplitID "@" userID = inr (localpart, FederationRequest.Origin request) ->
  json_Marshal [("membership", Leave)] = inr content ->
  rsAPI_BuildEvent (leave_builder roomID userID content BuilderAux.zero) cfg (time_Now w1) w1
  = (inr (event, aux, queryRes), w2) ->
  Allowed event
          (NewAuthEvents (map (@HeaderedEvent.Event_ Event) (api.StateEvents queryRes)))
  = Some denied ->
  routing.MakeLeave request cfg roomID userID w
  = (Returned (util.mk http.StatusForbidden (jsonerror.Forbidden (Error denied))), w2,
     [ CallQueryRoomVersionForRoom (api.mkVerReq roomID);
       CallBuildEvent (leave_builder roomID userID content BuilderAux.zero) cfg (time_Now w1) ]).
Proof.
  intros Hq Hsplit Hjson Hbuild Hauth.
  rewrite (MakeLeave_after_user_check request cfg roomID userID w Hq Hsplit), Hjson.
  cbv zeta. now rewrite Hbuild, Hauth.
Qed.

End MakeLeaveBranches.

(** ** The remaining branches of SubmitLeave *)

(** Every path of [SendLeave], with the run rewritten to its value. *)
Ltac SendLeave_cases request cfg roomID eventID w :=
  destruct (rsAPI_QueryRoomVersionForRoom (api.mkVerReq roomID) w)
    as [[err | verRes] w1] eqn:Hq;
  [ rewrite (SendLeave_at_resolver request cfg roomID eventID w Hq) in *
  | destruct (NewEventFromUntrustedJSON (FederationRequest.Content request)
                                        (api.RoomVersion_ verRes))
      as [err | event] eqn:Hparse;
    [ rewrite (SendLeave_at_parse request cfg roomID eventID w Hq Hparse) in *
    | destruct (cross_checks_dec request roomID eventID event)
        as [(Hroom & Hevent & Horigin) | Hbad];
      [ rewrite (SendLeave_after_cross_checks request cfg w Hq Hparse Hroom Hevent Horigin)
          in *;
        destruct (keys_VerifyJSONs (leave_verify_requests event) w1)
          as [[err | [| result0 rest]] w2] eqn:Hkeys;
        [ | | destruct (VerifyJSONResult.Error_ result0) as [sigerr |] eqn:Hsig;
              [ | destruct (Event_Membership event) as [err | mem] eqn:Hmem;
                  [ | destruct (negb (mem =? Leave)%string) eqn:Hleave;
                      [ | apply negb_eqb_false in Hleave; subst mem; cbv zeta in *;
                          destruct (rsAPI_SendEvents
                                      [HeaderedEvent.mk (api.RoomVersion_ verRes) event]
                                      (config.ServerName_ (config.Matrix_ cfg)) None w2)
                            as [[err |] w3] eqn:Hsend ] ] ] ]
      | rewrite (SendLeave_at_cross_checks request cfg w Hq Hparse Hbad) in *;
        destruct (negb (Event_RoomID event =? roomID)%string);
        [ | destruct (negb (Event_EventID event =? eventID)%string) ] ] ] ].

Section SendLeaveBranches.
Context {World Event AuthEvents : Type}.
Context {lib : Gomatrixserverlib Event AuthEvents}.
Context {svc : Services World Event}.

Variables (request : FederationRequest.t) (cfg : config.Dendrite).
Variables (roomID eventID : string).

(** X8: a resolver error makes SubmitLeave answer with a bad request
    of the unsupported-room-version kind that repeats the resolver's
    message, after that one call; DraftLeave answers the same error of
    the same resolver with its internal failure. *)
Theorem SendLeave_resolver_error_is_unsupported_room_version
        (w w1 : World) (err : error) :
  rsAPI_QueryRoomVersionForRoom (api.mkVerReq roomID) w = (inl err, w1) ->
  routing.SendLeave request cfg roomID eventID w
  = (Returned (util.mk http.StatusBadRequest (jsonerror.UnsupportedRoomVersion (Error err))),
     w1, [CallQueryRoomVersionForRoom (api.mkVerReq roomID)])
  /\ forall userID,
       routing.MakeLeave request cfg roomID userID w
       = (Returned Failure.ResolverFailure, w1,
          [CallQueryRoomVersionForRoom (api.mkVerReq roomID)]).
Proof.
  intros Hq. split.
  - exact (SendLeave_at_resolver request cfg roomID eventID w Hq).
  - intros userID. exact (MakeLeave_at_resolver request cfg roomID userID w Hq).
Qed.

(** X9: a body that does not parse under the resolved version makes
    SubmitLeave answer with a bad request of the not-JSON kind that
    repeats the parser's message; neither the key ring nor the Event
    Ingestion Service has a part in the run. *)
Theorem SendLeave_unparsable_body_is_rejected
        (w w1 : World) (verRes : api.QueryRoomVersionForRoomResponse) (err : error) :
  rsAPI_QueryRoomVersionForRoom (api.mkVerReq roomID) w = (inr verRes, w1) ->
  NewEventFromUntrustedJSON (FederationRequest.Content request) (api.RoomVersion_ verRes)
  = inl err ->
  routing.SendLeave request cfg roomID eventID w
  = (Returned
       (util.mk http.StatusBadRequest
          (jsonerror.NotJSON
             ("The request body could not be decoded into valid JSON. " ++ Error err))),
     w1, [CallQueryRoomVersionForRoom (api.mkVerReq roomID)])
  /\ forall verifier ingest,
       routing.SendLeave (svc := with_ingestion (with_keys svc verifier) ingest)
                         request cfg roomID eventID w
       = routing.SendLeave request cfg roomID eventID w.
Proof.
  intros Hq Hparse. split.
  - exact (SendLeave_at_parse request cfg roomID eventID w Hq Hparse).
  - intros verifier ingest.
    rewrite (SendLeave_at_parse request cfg roomID eventID w Hq Hparse).
    exact (SendLeave_at_parse (svc := with_ingestion (with_keys svc verifier) ingest)
                              request cfg roomID eventID w Hq Hparse).
Qed.

(** X10: SubmitLeave answers with status 200 exactly when the version
    resolves, the body parses, the three cross-checks pass, the first
    verification result carries no error, the membership is leave, and
    the Event Ingestion Service accepts the event. *)
Theorem SendLeave_accepts_iff_validated_and_ingested (w : World) :
  (exists r, response (routing.SendLeave request cfg roomID eventID w) = Returned r
             /\ util.Code r = http.StatusOK)
  <-> exists verRes w1 event result0 rest w2 w3,
        rsAPI_QueryRoomVersionForRoom (api.mkVerReq roomID) w = (inr verRes, w1)
        /\ NewEventFromUntrustedJSON (FederationRequest.Content request)
                                     (api.RoomVersion_ verRes) = inr event
        /\ Event_RoomID event = roomID
        /\ Event_EventID event = eventID
        /\ Event_Origin event = FederationRequest.Origin request
        /\ keys_VerifyJSONs (leave_verify_requests event) w1 = (inr (result0 :: rest), w2)
        /\ VerifyJSONResult.Error_ result0 = None
        /\ Event_Membership event = inr Leave
        /\ rsAPI_SendEvents [HeaderedEvent.mk (api.RoomVersion_ verRes) event]
                            (config.ServerName_ (config.Matrix_ cfg)) None w2
           = (None, w3).
Proof.
  split.
  - intros (r & Hrun & Hcode).
    SendLeave_cases request cfg roomID eventID w; unfold response in Hrun; simpl in Hrun;
      try discriminate Hrun; injection Hrun as <-; try discriminate Hcode.
    exists verRes, w1, event, result0, rest, w2, w3. repeat split; assumption.
  - intros (verRes & w1 & event & result0 & rest & w2 & w3 & Hq & Hparse & Hroom & Hevent
            & Horigin & Hkeys & Hsig & Hmem & Hsend).
    rewrite (SendLeave_after_cross_checks request cfg w Hq Hparse Hroom Hevent Horigin).
    rewrite Hkeys, Hsig, Hmem. simpl. rewrite Hsend.
    eexists. split; reflexivity.
Qed.

(** X11: when the Event Ingestion Service refuses the validated event,
    SubmitLeave logs the error and answers with the internal failure;
    the event was submitted once and is not submitted again. *)
Theorem SendLeave_ingestion_failure_is_internal_failure
        (w w1 w2 w3 : World) (verRes : api.QueryRoomVersionForRoomResponse) (event : Event)
        (result0 : VerifyJSONResult.t) (rest : list VerifyJSONResult.t) (err : error) :
  rsAPI_QueryRoomVersionForRoom (api.mkVerReq roomID) w = (inr verRes, w1) ->
  NewEventFromUntrustedJSON (FederationRequest.Content request) (api.RoomVersion_ verRes)
  = inr event ->
  Event_RoomID event = roomID ->
  Event_EventID event = eventID ->
  Event_Origin event = FederationRequest.Origin request ->
  keys_VerifyJSONs (leave_verify_requests event) w1 = (inr (result0 :: rest), w2) ->
  VerifyJSONResult.Error_ result0 = None ->
  Event_Membership event = inr Leave ->
  rsAPI_SendEvents [HeaderedEvent.mk (api.RoomVersion_ verRes) event]
                   (config.ServerName_ (config.Matrix_ cfg)) None w2
  = (Some err, w3) ->
  routing.SendLeave request cfg roomID eventID w
  = (Returned Failure.InternalFailure, w3,
     [ CallQueryRoomVersionForRoom (api.mkVerReq roomID);
       CallVerifyJSONs (leave_verify_requests event);
       CallSendEvents [HeaderedEvent.mk (api.RoomVersion_ verRes) event]
                      (config.ServerName_ (config.Matrix_ cfg)) None;
       CallLogError err "producer.SendEvents failed" ]).
Proof.
  intros Hq Hparse Hroom Hevent Horigin Hkeys Hsig Hmem Hsend.
  rewrite (SendLeave_after_cross_checks request cfg w Hq Hparse Hroom Hevent Horigin).
  rewrite Hkeys, Hsig, Hmem. simpl. now rewrite Hsend.
Qed.

(** X12: SubmitLeave panics exactly when the request passes the
    cross-checks and the key ring returns neither an error nor any
    result; the panic is the out-of-range index into the results. *)
Theorem SendLeave_panics_iff_no_verify_result (w : World) :
  (exists reason, response (routing.SendLeave request cfg roomID eventID w) = Panicked reason)
  <-> exists verRes w1 event w2,
        rsAPI_QueryRoomVersionForRoom (api.mkVerReq roomID) w = (inr verRes, w1)
        /\ NewEventFromUntrustedJSON (FederationRequest.Content request)
                                     (api.RoomVersion_ verRes) = inr event
        /\ Event_RoomID event = roomID
        /\ Event_EventID event = eventID
        /\ Event_Origin event = FederationRequest.Origin request
        /\ keys_VerifyJSONs (leave_verify_requests event) w1 = (inr [], w2).
Proof.
  split.
  - intros (reason & Hrun).
    SendLeave_cases request cfg roomID eventID w; unfold response in Hrun; simpl in Hrun;
      try discriminate Hrun.
    exists verRes, w1, event, w2. repeat split; assumption.
  - intros (verRes & w1 & event & w2 & Hq & Hparse & Hroom & Hevent & Horigin & Hkeys).
    rewrite (SendLeave_after_cross_checks request cfg w Hq Hparse Hroom Hevent Horigin).
    rewrite Hkeys. eexists. reflexivity.
Qed.

(** X13: when the membership of a correctly addressed and correctly
    signed event cannot be read, SubmitLeave logs the error and answers
    with the internal failure; nothing is submitted. *)
Theorem SendLeave_unreadable_membership_is_internal_failure
        (w w1 w2 : World) (verRes : api.QueryRoomVersionForRoomResponse) (event : Event)
        (result0 : VerifyJSONResult.t) (rest : list VerifyJSONResult.t) (err : error) :
  rsAPI_QueryRoomVersionForRoom (api.mkVerReq roomID) w = (inr verRes, w1) ->
  NewEventFromUntrustedJSON (FederationRequest.Content request) (api.RoomVersion_ verRes)
  = inr event ->
  Event_RoomID event = roomID ->
  Event_EventID event = eventID ->
  Event_Origin event = FederationRequest.Origin request ->
  keys_VerifyJSONs (leave_verify_requests event) w1 = (inr (result0 :: rest), w2) ->
  VerifyJSONResult.Error_ result0 = None ->
  Event_Membership event = inl err ->
  routing.SendLeave request cfg roomID eventID w
  = (Returned Failure.InternalFailure, w2,
     [ CallQueryRoomVersionForRoom (api.mkVerReq roomID);
       CallVerifyJSONs (leave_verify_requests event);
       CallLogError err "event.Membership failed" ]).
Proof.
  intros Hq Hparse Hroom Hevent Horigin Hkeys Hsig Hmem.
  rewrite (SendLeave_after_cross_checks request cfg w Hq Hparse Hroom Hevent Horigin).
  now rewrite Hkeys, Hsig, Hmem.
Qed.

(** X14: the answers of SubmitLeave carry one of four statuses, never
    not-found, and the body under status 200 is empty. *)
Theorem SendLeave_status_codes (w : World) (r : util.JSONResponse) :
  response (routing.SendLeave request cfg roomID eventID w) = Returned r ->
  In (util.Code r) [200; 400; 403; 500]
  /\ (util.Code r = 200 -> util.JSON r = JEmpty).
Proof.
  intros Hrun.
  SendLeave_cases request cfg roomID eventID w; unfold response in Hrun; simpl in Hrun;
    try discriminate Hrun; injection Hrun as <-;
    (split; [simpl; tauto | intros Hcode; try discriminate Hcode; reflexivity]).
Qed.

(** X15: SubmitLeave writes a log entry exactly when it answers with
    the internal failure. *)
Theorem SendLeave_logs_exactly_internal_failures (w : World) :
  (exists err msg, In (CallLogError err msg)
                      (calls (routing.SendLeave request cfg roomID eventID w)))
  <-> response (routing.SendLeave request cfg roomID eventID w)
      = Returned Failure.InternalFailure.
Proof.
  SendLeave_cases request cfg roomID eventID w; unfold calls, response; simpl;
    (split;
     [ intros (e0 & msg & Hin); try reflexivity; not_among Hin
     | intros Hanswer; try (unfold_failures in Hanswer; discriminate Hanswer);
       eexists; eexists; eauto 6 ]).
Qed.

(** X16: the calls of SubmitLeave have one of five shapes: the version
    query, then possibly the signature check, then possibly the
    submission, each at most once and in this order, with at most one
    log entry, at the end. *)
Theorem SendLeave_call_shape (w : World) :
  In (map kind (calls (routing.SendLeave request cfg roomID eventID w)))
     [ [VersionQuery]; [VersionQuery; Verification];
       [VersionQuery; Verification; LogEntry];
       [VersionQuery; Verification; Submission];
       [VersionQuery; Verification; Submission; LogEntry] ].
Proof.
  SendLeave_cases request cfg roomID eventID w; unfold calls; simpl; tauto.
Qed.

(** X17: a run of SubmitLeave that makes no submission is the same run,
    call for call and world for world, in front of any Event Ingestion
    Service: validation consults the room server and the key ring only. *)
Theorem SendLeave_validation_ignores_ingestion (w : World) :
  Forall (fun c => is_submission c = false)
         (calls (routing.SendLeave request cfg roomID eventID w)) ->
  forall ingest,
    routing.SendLeave (svc := with_ingestion svc ingest) request cfg roomID eventID w
    = routing.SendLeave request cfg roomID eventID w.
Proof.
  intros Hnone ingest.
  destruct (rsAPI_QueryRoomVersionForRoom (api.mkVerReq roomID) w)
    as [[err | verRes] w1] eqn:Hq.
  { rewrite (SendLeave_at_resolver request cfg roomID eventID w Hq).
    exact (SendLeave_at_resolver (svc := with_ingestion svc ingest)
                                 request cfg roomID eventID w Hq). }
  destruct (NewEventFromUntrustedJSON (FederationRequest.Content request)
                                      (api.RoomVersion_ verRes)) as [err | event] eqn:Hparse.
  { rewrite (SendLeave_at_parse request cfg roomID eventID w Hq Hparse).
    exact (SendLeave_at_parse (svc := with_ingestion svc ingest)
                              request cfg roomID eventID w Hq Hparse). }
  destruct (cross_checks_dec request roomID eventID event)
    as [(Hroom & Hevent & Horigin) | Hbad].
  2:{ rewrite (SendLeave_at_cross_checks request cfg w Hq Hparse Hbad).
      exact (SendLeave_at_cross_checks (svc := with_ingestion svc ingest)
                                       request cfg w Hq Hparse Hbad). }
  rewrite (SendLeave_after_cross_checks request cfg w Hq Hparse Hroom Hevent Horigin) in *.
  rewrite (SendLeave_after_cross_checks (svc := with_ingestion svc ingest)
                                        request cfg w Hq Hparse Hroom Hevent Horigin).
  cbn [keys_VerifyJSONs rsAPI_SendEvents with_ingestion].
  destruct (keys_VerifyJSONs (leave_verify_requests event) w1)
    as [[err | [| result0 rest]] w2]; try reflexivity.
  destruct (VerifyJSONResult.Error_ result0); try reflexivity.
  destruct (Event_Membership event) as [err | mem]; try reflexivity.
  destruct (negb (mem =? Leave)%string); try reflexivity.
  exfalso. cbv zeta in Hnone.
  assert (Hin : In (CallSendEvents [HeaderedEvent.mk (api.RoomVersion_ verRes) event]
                                   (config.ServerName_ (config.Matrix_ cfg)) None)
                   (calls
                      match rsAPI_SendEvents
                              [HeaderedEvent.mk (api.RoomVersion_ verRes) event]
                              (config.ServerName_ (config.Matrix_ cfg)) None w2 with
                      | (Some err, w3) =>
                          (Returned Failure.InternalFailure, w3,
                           [ CallQueryRoomVersionForRoom (api.mkVerReq roomID);
                             CallVerifyJSONs (leave_verify_requests event);
                             CallSendEvents
                               [HeaderedEvent.mk (api.RoomVersion_ verRes) event]
                               (config.ServerName_ (config.Matrix_ cfg)) None;
                             CallLogError err "producer.SendEvents failed" ])
                      | (None, w3) =>
                          (Returned (util.mk http.StatusOK JEmpty), w3,
                           [ CallQueryRoomVersionForRoom (api.mkVerReq roomID);
                             CallVerifyJSONs (leave_verify_requests event);
                             CallSendEvents
                               [HeaderedEvent.mk (api.RoomVersion_ verRes) event]
                               (config.ServerName_ (config.Matrix_ cfg)) None ])
                      end)).
  { destruct (rsAPI_SendEvents _ _ None w2) as [[err |] w3]; unfold calls; simpl; tauto. }
  rewrite Forall_forall in Hnone. specialize (Hnone _ Hin). discriminate Hnone.
Qed.

End SendLeaveBranches.

(** ** The remaining branches on the reference implementation *)

Lemma MakeLeave_status_codes_witness :
  response (Fake.MakeLeave (Fake.from_b "") "!r:a.org" "@u:b.org" Fake.world)
  = Returned Fake.draft
  /\ In (util.Code Fake.draft) [200; 400; 403; 404; 500]
  /\ (util.Code Fake.draft = 200
      <-> exists version template, util.JSON Fake.draft = JDraft version template).
Proof.
  split; [reflexivity |].
  apply (MakeLeave_status_codes (lib := Fake.lib Fake.wire) (svc := Fake.svc)
                                (Fake.from_b "") Fake.cfg "!r:a.org" "@u:b.org" Fake.world).
  reflexivity.
Defined.

Lemma MakeLeave_logs_exactly_internal_failures_witness :
  response (routing.MakeLeave (lib := Faults.lib)
                              (svc := Faults.svc_build_fails (errors_New "database is locked"))
                              (Fake.from_b "") Fake.cfg "!r:a.org" "@u:b.org" Fake.world)
  = Returned Failure.InternalFailure
  /\ exists err msg,
       In (CallLogError err msg)
          (calls (routing.MakeLeave
                    (lib := Faults.lib)
                    (svc := Faults.svc_build_fails (errors_New "database is locked"))
                    (Fake.from_b "") Fake.cfg "!r:a.org" "@u:b.org" Fake.world)).
Proof.
  split; [reflexivity |].
  apply (MakeLeave_logs_exactly_internal_failures
           (lib := Faults.lib)
           (svc := Faults.svc_build_fails (errors_New "database is locked"))
           (Fake.from_b "") Fake.cfg "!r:a.org" "@u:b.org" Fake.world).
  reflexivity.
Defined.

Lemma MakeLeave_encoder_failure_is_internal_failure_witness :
  Fake.query_version (api.mkVerReq "!r:a.org") Fake.world
  = (inr (api.mkVerRes "1"), Fake.world)
  /\ Fake.split_id "@" "@u:b.org" = inr ("u", FederationRequest.Origin (Fake.from_b ""))
  /\ json_Marshal (Gomatrixserverlib := Faults.lib_no_encoder) [("membership", Leave)]
     = inl (errors_New "json: unsupported value")
  /\ routing.MakeLeave (lib := Faults.lib_no_encoder) (svc := Fake.svc)
                       (Fake.from_b "") Fake.cfg "!r:a.org" "@u:b.org" Fake.world
     = (Returned Failure.InternalFailure, Fake.world,
        [ CallQueryRoomVersionForRoom (api.mkVerReq "!r:a.org");
          CallLogError (errors_New "json: unsupported value") "builder.SetContent failed" ]).
Proof.
  repeat (split; [reflexivity |]).
  apply (MakeLeave_encoder_failure_is_internal_failure
           (lib := Faults.lib_no_encoder) (svc := Fake.svc)
           (Fake.from_b "") Fake.cfg "!r:a.org" "@u:b.org" Fake.world
           (w1 := Fake.world) (verRes := api.mkVerRes "1") (localpart := "u")
           (err := errors_New "json: unsupported value"));
    reflexivity.
Defined.

Lemma MakeLeave_build_failure_by_kind_witness :
  Fake.query_version (api.mkVerReq "!r:a.org") Fake.world
  = (inr (api.mkVerRes "1"), Fake.world)
  /\ Fake.split_id "@" "@u:b.org" = inr ("u", FederationRequest.Origin (Fake.from_b ""))
  /\ json_Marshal (Gomatrixserverlib := Faults.lib) [("membership", Leave)]
     = inr "membership=leave;"
  /\ routing.MakeLeave
       (lib := Faults.lib)
       (svc := Faults.svc_build_fails (mkError IsBadJSONError "content is not an object"))
       (Fake.from_b "") Fake.cfg "!r:a.org" "@u:b.org" Fake.world
     = (Returned (util.mk 400 (jsonerror.BadJSON "content is not an object")), Fake.world,
        [ CallQueryRoomVersionForRoom (api.mkVerReq "!r:a.org");
          CallBuildEvent
            (leave_builder "!r:a.org" "@u:b.org" "membership=leave;" BuilderAux.zero)
            Fake.cfg 100 ]).
Proof.
  repeat (split; [reflexivity |]).
  apply (MakeLeave_build_failure_by_kind
           (lib := Faults.lib)
           (svc := Faults.svc_build_fails (mkError IsBadJSONError "content is not an object"))
           (Fake.from_b "") Fake.cfg "!r:a.org" "@u:b.org" Fake.world
           (w1 := Fake.world) (w2 := Fake.world) (verRes := api.mkVerRes "1")
           (localpart := "u") (content := "membership=leave;")
           (err := mkError IsBadJSONError "content is not an object"));
    reflexivity.
Defined.

Lemma MakeLeave_not_authorized_carries_reason_witness :
  Fake.query_version (api.mkVerReq "!r:a.org") Faults.world_stranger
  = (inr (api.mkVerRes "1"), Faults.world_stranger)
  /\ Fake.split_id "@" "@u:b.org" = inr ("u", FederationRequest.Origin (Fake.from_b ""))
  /\ Fake.allowed
       (Fake.mkEvent "!r:a.org" "$draft" "@u:b.org" "a.org" 100 (Some Leave)
                     "membership=leave;" false)
       [Faults.stranger]
     = Some (errors_New "sender is not in the room")
  /\ Fake.MakeLeave (Fake.from_b "") "!r:a.org" "@u:b.org" Faults.world_stranger
     = (Returned (util.mk 403 (jsonerror.Forbidden "sender is not in the room")),
        Faults.world_stranger,
        [ CallQueryRoomVersionForRoom (api.mkVerReq "!r:a.org");
          CallBuildEvent
            (leave_builder "!r:a.org" "@u:b.org" "membership=leave;" BuilderAux.zero)
            Fake.cfg 100 ]).
Proof.
  repeat (split; [reflexivity |]).
  apply (MakeLeave_not_authorized_carries_reason
           (lib := Fake.lib Fake.wire) (svc := Fake.svc)
           (Fake.from_b "") Fake.cfg "!r:a.org" "@u:b.org" Faults.world_stranger
           (w1 := Faults.world_stranger) (w2 := Faults.world_stranger)
           (verRes := api.mkVerRes "1") (localpart := "u") (content := "membership=leave;")
           (event := Fake.mkEvent "!r:a.org" "$draft" "@u:b.org" "a.org" 100 (Some Leave)
                                  "membership=leave;" false)
           (aux := BuilderAux.mk ["$m1"] ["$m1"] 1)
           (queryRes := api.mkQueryRes [HeaderedEvent.mk "1" Faults.stranger])
           (denied := errors_New "sender is not in the room"));
    reflexivity.
Defined.

Lemma MakeLeave_not_found_comes_from_BuildEvent_witness :
  response (Fake.MakeLeave (Fake.from_b "") "!r:a.org" "@u:b.org" Fake.world_no_state)
  = Returned Failure.RoomUnknown
  /\ util.Code Failure.RoomUnknown = http.StatusNotFound
  /\ exists verRes w1 localpart content err w2,
       Fake.query_version (api.mkVerReq "!r:a.org") Fake.world_no_state = (inr verRes, w1)
       /\ Fake.split_id "@" "@u:b.org"
          = inr (localpart, FederationRequest.Origin (Fake.from_b ""))
       /\ inr (Fake.render [("membership", Leave)]) = inr (A := error) content
       /\ Fake.build_event (leave_builder "!r:a.org" "@u:b.org" content BuilderAux.zero)
                           Fake.cfg (Fake.clock w1) w1 = (inl err, w2)
       /\ is_ErrRoomNoExists err = true
       /\ Failure.RoomUnknown = Failure.RoomUnknown
       /\ Fake.MakeLeave (Fake.from_b "") "!r:a.org" "@u:b.org" Fake.world_no_state
          = (Returned Failure.RoomUnknown, w2,
             [ CallQueryRoomVersionForRoom (api.mkVerReq "!r:a.org");
               CallBuildEvent
                 (leave_builder "!r:a.org" "@u:b.org" content BuilderAux.zero)
                 Fake.cfg (Fake.clock w1) ]).
Proof.
  split; [reflexivity |]. split; [reflexivity |].
  apply (MakeLeave_not_found_comes_from_BuildEvent
           (lib := Fake.lib Fake.wire) (svc := Fake.svc)
           (Fake.from_b "") Fake.cfg "!r:a.org" "@u:b.org" Fake.world_no_state
           (r := Failure.RoomUnknown));
    reflexivity.
Defined.

Lemma SendLeave_resolver_error_is_unsupported_room_version_witness :
  Fake.query_version (api.mkVerReq "!r:a.org") Fake.world_unknown_room
  = (inl (errors_New "room not found"), Fake.world_unknown_room)
  /\ Fake.SendLeave (Fake.from_b "payload-e1") "!r:a.org" "$e1" Fake.world_unknown_room
     = (Returned (util.mk 400 (jsonerror.UnsupportedRoomVersion "room not found")),
        Fake.world_unknown_room, [CallQueryRoomVersionForRoom (api.mkVerReq "!r:a.org")])
  /\ Fake.MakeLeave (Fake.from_b "payload-e1") "!r:a.org" "@u:b.org" Fake.world_unknown_room
     = (Returned Failure.ResolverFailure, Fake.world_unknown_room,
        [CallQueryRoomVersionForRoom (api.mkVerReq "!r:a.org")]).
Proof.
  split; [reflexivity |].
  destruct (SendLeave_resolver_error_is_unsupported_room_version
              (lib := Fake.lib Fake.wire) (svc := Fake.svc)
              (Fake.from_b "payload-e1") Fake.cfg "!r:a.org" "$e1" Fake.world_unknown_room
              (w1 := Fake.world_unknown_room) (err := errors_New "room not found") eq_refl)
    as (Hsend & Hmake).
  split; [exact Hsend | exact (Hmake "@u:b.org")].
Defined.

Lemma SendLeave_unparsable_body_is_rejected_witness :
  Fake.query_version (api.mkVerReq "!r:a.org") Fake.world
  = (inr (api.mkVerRes "1"), Fake.world)
  /\ NewEventFromUntrustedJSON (Gomatrixserverlib := Fake.lib Fake.wire)
                               (FederationRequest.Content (Fake.from_b "{")) "1"
     = inl (errors_New "unexpected end of JSON input")
  /\ Fake.SendLeave (Fake.from_b "{") "!r:a.org" "$e1" Fake.world
     = (Returned
          (util.mk 400
             (jsonerror.NotJSON
                "The request body could not be decoded into valid JSON. unexpected end of JSON input")),
        Fake.world, [CallQueryRoomVersionForRoom (api.mkVerReq "!r:a.org")]).
Proof.
  repeat (split; [reflexivity |]).
  apply (SendLeave_unparsable_body_is_rejected
           (lib := Fake.lib Fake.wire) (svc := Fake.svc)
           (Fake.from_b "{") Fake.cfg "!r:a.org" "$e1" Fake.world
           (w1 := Fake.world) (verRes := api.mkVerRes "1")
           (err := errors_New "unexpected end of JSON input"));
    reflexivity.
Defined.

Lemma SendLeave_accepts_iff_validated_and_ingested_witness :
  response (Fake.SendLeave (Fake.from_b "payload-e1") "!r:a.org" "$e1" Fake.world)
  = Returned (util.mk 200 JEmpty)
  /\ exists verRes w1 event result0 rest w2 w3,
       Fake.query_version (api.mkVerReq "!r:a.org") Fake.world = (inr verRes, w1)
       /\ NewEventFromUntrustedJSON (Gomatrixserverlib := Fake.lib Fake.wire)
                                    (FederationRequest.Content (Fake.from_b "payload-e1"))
                                    (api.RoomVersion_ verRes) = inr event
       /\ Fake.fRoomID event = "!r:a.org"
       /\ Fake.fEventID event = "$e1"
       /\ Fake.fOrigin event = FederationRequest.Origin (Fake.from_b "payload-e1")
       /\ Fake.verify (leave_verify_requests (lib := Fake.lib Fake.wire) event) w1
          = (inr (result0 :: rest), w2)
       /\ VerifyJSONResult.Error_ result0 = None
       /\ Event_Membership (Gomatrixserverlib := Fake.lib Fake.wire) event = inr Leave
       /\ Fake.send_events [HeaderedEvent.mk (api.RoomVersion_ verRes) event]
                           (config.ServerName_ (config.Matrix_ Fake.cfg)) None w2
          = (None, w3).
Proof.
  split; [reflexivity |].
  apply (SendLeave_accepts_iff_validated_and_ingested
           (lib := Fake.lib Fake.wire) (svc := Fake.svc)
           (Fake.from_b "payload-e1") Fake.cfg "!r:a.org" "$e1" Fake.world).
  exists (util.mk 200 JEmpty). split; reflexivity.
Defined.

Lemma SendLeave_ingestion_failure_is_internal_failure_witness :
  Fake.send_events [HeaderedEvent.mk "1" Fake.e1] "a.org" None Faults.world_ingest_down
  = (Some (errors_New "input API unavailable"), Faults.world_ingest_down)
  /\ Fake.SendLeave (Fake.from_b "payload-e1") "!r:a.org" "$e1" Faults.world_ingest_down
     = (Returned Failure.InternalFailure, Faults.world_ingest_down,
        [ CallQueryRoomVersionForRoom (api.mkVerReq "!r:a.org");
          CallVerifyJSONs [VerifyJSONRequest.mk "b.org" "leave-json" 20 true];
          CallSendEvents [HeaderedEvent.mk "1" Fake.e1] "a.org" None;
          CallLogError (errors_New "input API unavailable") "producer.SendEvents failed" ]).
Proof.
  split; [reflexivity |].
  apply (SendLeave_ingestion_failure_is_internal_failure
           (lib := Fake.lib Fake.wire) (svc := Fake.svc)
           (Fake.from_b "payload-e1") Fake.cfg (roomID := "!r:a.org") (eventID := "$e1")
           Faults.world_ingest_down
           (w1 := Faults.world_ingest_down) (w2 := Faults.world_ingest_down)
           (w3 := Faults.world_ingest_down) (verRes := api.mkVerRes "1") (event := Fake.e1)
           (result0 := VerifyJSONResult.mk None) (rest := [])
           (err := errors_New "input API unavailable"));
    reflexivity.
Defined.

Lemma SendLeave_panics_iff_no_verify_result_witness :
  response (routing.SendLeave (lib := Fake.lib Fake.wire) (svc := Faults.svc_no_verdict)
                              (Fake.from_b "payload-e1") Fake.cfg "!r:a.org" "$e1" Fake.world)
  = Panicked "index out of range [0] with length 0"
  /\ exists verRes w1 event w2,
       Fake.query_version (api.mkVerReq "!r:a.org") Fake.world = (inr verRes, w1)
       /\ NewEventFromUntrustedJSON (Gomatrixserverlib := Fake.lib Fake.wire)
                                    (FederationRequest.Content (Fake.from_b "payload-e1"))
                                    (api.RoomVersion_ verRes) = inr event
       /\ Fake.fRoomID event = "!r:a.org"
       /\ Fake.fEventID event = "$e1"
       /\ Fake.fOrigin event = FederationRequest.Origin (Fake.from_b "payload-e1")
       /\ keys_VerifyJSONs (Services := Faults.svc_no_verdict)
                           (leave_verify_requests (lib := Fake.lib Fake.wire) event) w1
          = (inr [], w2).
Proof.
  split; [reflexivity |].
  apply (SendLeave_panics_iff_no_verify_result
           (lib := Fake.lib Fake.wire) (svc := Faults.svc_no_verdict)
           (Fake.from_b "payload-e1") Fake.cfg "!r:a.org" "$e1" Fake.world).
  eexists. reflexivity.
Defined.

Lemma SendLeave_unreadable_membership_is_internal_failure_witness :
  Event_Membership (Gomatrixserverlib := Faults.lib) Faults.e3
  = inl (errors_New "not an m.room.member event")
  /\ routing.SendLeave (lib := Faults.lib) (svc := Fake.svc)
                       (Fake.from_b "payload-e3") Fake.cfg "!r:a.org" "$e3" Fake.world
     = (Returned Failure.InternalFailure, Fake.world,
        [ CallQueryRoomVersionForRoom (api.mkVerReq "!r:a.org");
          CallVerifyJSONs [VerifyJSONRequest.mk "b.org" "leave-json" 20 true];
          CallLogError (errors_New "not an m.room.member event") "event.Membership failed" ]).
Proof.
  split; [reflexivity |].
  apply (SendLeave_unreadable_membership_is_internal_failure
           (lib := Faults.lib) (svc := Fake.svc)
           (Fake.from_b "payload-e3") Fake.cfg (roomID := "!r:a.org") (eventID := "$e3")
           Fake.world (w1 := Fake.world) (w2 := Fake.world) (verRes := api.mkVerRes "1")
           (event := Faults.e3) (result0 := VerifyJSONResult.mk None) (rest := [])
           (err := errors_New "not an m.room.member event"));
    reflexivity.
Defined.

Lemma SendLeave_status_codes_witness :
  response (Fake.SendLeave (Fake.from_b "payload-e1") "!r:a.org" "$e1" Fake.world)
  = Returned (util.mk 200 JEmpty)
  /\ In (util.Code (util.mk 200 JEmpty)) [200; 400; 403; 500]
  /\ (util.Code (util.mk 200 JEmpty) = 200 -> util.JSON (util.mk 200 JEmpty) = JEmpty).
Proof.
  split; [reflexivity |].
  apply (SendLeave_status_codes (lib := Fake.lib Fake.wire) (svc := Fake.svc)
                                (Fake.from_b "payload-e1") Fake.cfg "!r:a.org" "$e1"
                                Fake.world).
  reflexivity.
Defined.

Lemma SendLeave_logs_exactly_internal_failures_witness :
  response (Fake.SendLeave (Fake.from_b "payload-e1") "!r:a.org" "$e1" Fake.world_keys_down)
  = Returned Failure.InternalFailure
  /\ exists err msg,
       In (CallLogError err msg)
          (calls (Fake.SendLeave (Fake.from_b "payload-e1") "!r:a.org" "$e1"
                                 Fake.world_keys_down)).
Proof.
  split; [reflexivity |].
  apply (SendLeave_logs_exactly_internal_failures
           (lib := Fake.lib Fake.wire) (svc := Fake.svc)
           (Fake.from_b "payload-e1") Fake.cfg "!r:a.org" "$e1" Fake.world_keys_down).
  reflexivity.
Defined.

Lemma SendLeave_validation_ignores_ingestion_witness :
  Forall (fun c => is_submission c = false)
         (calls (Fake.SendLeave (Fake.from_c "payload-e1") "!r:a.org" "$e1" Fake.world))
  /\ forall ingest,
       routing.SendLeave (lib := Fake.lib Fake.wire) (svc := with_ingestion Fake.svc ingest)
                         (Fake.from_c "payload-e1") Fake.cfg "!r:a.org" "$e1" Fake.world
       = Fake.SendLeave (Fake.from_c "payload-e1") "!r:a.org" "$e1" Fake.world.
Proof.
  split; [repeat constructor |].
  apply (SendLeave_validation_ignores_ingestion
           (lib := Fake.lib Fake.wire) (svc := Fake.svc)
           (Fake.from_c "payload-e1") Fake.cfg "!r:a.org" "$e1" Fake.world).
  repeat constructor.
Defined.

(** C6 on a concrete request: the event is correctly addressed and
    correctly signed, and its membership is not leave: it cannot be read
    at all.  SubmitLeave answers with the internal failure of status
    500 and not with the membership-mismatch response. *)
Lemma SendLeave_unreadable_membership_is_not_membership_mismatch :
  Fake.query_version (api.mkVerReq "!r:a.org") Fake.world
  = (inr (api.mkVerRes "1"), Fake.world)
  /\ NewEventFromUntrustedJSON (Gomatrixserverlib := Faults.lib)
                               (FederationRequest.Content (Fake.from_b "payload-e3")) "1"
     = inr Faults.e3
  /\ Fake.fRoomID Faults.e3 = "!r:a.org"
  /\ Fake.fEventID Faults.e3 = "$e3"
  /\ Fake.fOrigin Faults.e3 = FederationRequest.Origin (Fake.from_b "payload-e3")
  /\ Fake.verify (leave_verify_requests (lib := Faults.lib) Faults.e3) Fake.world
     = (inr [VerifyJSONResult.mk None], Fake.world)
  /\ Event_Membership (Gomatrixserverlib := Faults.lib) Faults.e3 <> inr Leave
  /\ response (routing.SendLeave (lib := Faults.lib) (svc := Fake.svc)
                                 (Fake.from_b "payload-e3") Fake.cfg "!r:a.org" "$e3"
                                 Fake.world)
     = Returned (util.mk 500 (JError (MatrixError.Unknown "Internal Server Error")))
  /\ response (routing.SendLeave (lib := Faults.lib) (svc := Fake.svc)
                                 (Fake.from_b "payload-e3") Fake.cfg "!r:a.org" "$e3"
                                 Fake.world)
     <> Returned Failure.MembershipMismatch.
Proof.
  repeat split; try reflexivity; discriminate.
Qed.
